(** * spigot: random log-line generators (Fortinet firewall, Citrix CEF)

    A shallow embedding of [pkg/random], of the Fortinet firewall generator
    and of the Citrix CEF generator, together with the parts of the Go
    standard library they call ([math/rand], [time], [net], [text/template]),
    and the properties of the generator framework proved about them. *)

From Stdlib Require Import ZArith Lia Ascii DecimalString.
From stdpp Require Import base option list strings gmap.

Local Open Scope Z_scope.
Set Warnings "-register-all".

(** ** Strings and bytes *)

(** The double-quote character; Go writes it as an escape inside its string
    literals. *)
Definition dquote : string := String (ascii_of_nat 34) EmptyString.

(** [q s] is [s] between double quotes. *)
Definition q (s : string) : string := dquote +:+ s +:+ dquote.

Definition newline : ascii := ascii_of_nat 10.

(** [nl_free s]: no byte of [s] is a line feed. *)
Fixpoint nl_free (s : string) : bool :=
  match s with
  | EmptyString => true
  | String c s' => negb (Ascii.eqb c newline) && nl_free s'
  end.

(** [strconv.Itoa] and the [%d] verb: decimal, with a leading minus sign. *)
Definition itoa (z : Z) : string := NilZero.string_of_int (Z.to_int z).

Fixpoint zeros (n : nat) : string :=
  match n with
  | O => EmptyString
  | S n' => String "0" (zeros n')
  end.

(** Go's [int] and [int64] on a 64-bit platform: two's complement
    wrap-around. *)
Definition wrap64 (z : Z) : Z := (z + 2 ^ 63) mod 2 ^ 64 - 2 ^ 63.
Definition add64 (a b : Z) : Z := wrap64 (a + b).
Definition sub64 (a b : Z) : Z := wrap64 (a - b).
Definition mul64 (a b : Z) : Z := wrap64 (a * b).
Definition neg64 (a : Z) : Z := wrap64 (- a).

(** [hex.EncodeToString]: two lower-case digits per byte. *)
Definition hexDigit (d : Z) : string :=
  match String.get (Z.to_nat d) "0123456789abcdef" with
  | Some c => String c EmptyString
  | None => EmptyString
  end.

Fixpoint EncodeToString (bs : list Z) : string :=
  match bs with
  | [] => EmptyString
  | b :: bs' =>
      hexDigit (Z.shiftr b 4) +:+ hexDigit (Z.land b 15) +:+ EncodeToString bs'
  end.

(** ** The environment: random source and wall clock

    [math/rand]'s global source is a stream of raw draws with a cursor;
    [rand.Seed] replaces the stream by the one the generator algorithm
    [prng] produces for the seed.  [time.Now] reads successive values of
    the wall clock, in nanoseconds since the Unix epoch.  [zone] is the
    local time zone: the offset in seconds east of UTC in force at a given
    Unix second. *)
Record World : Type := mkWorld {
  seq : nat -> Z;
  pos : nat;
  prng : Z -> nat -> Z;
  clock : nat -> Z;
  tick : nat;
  zone : Z -> Z
}.

(** A call either returns, with a value and the new environment, or panics
    (Go run-time panic). *)
Inductive outcome (A : Type) : Type :=
| Done (a : A) (w : World)
| Panic (msg : string).
Arguments Done {A} a w.
Arguments Panic {A} msg.

Definition M (A : Type) : Type := World -> outcome A.

Definition ret {A} (a : A) : M A := fun w => Done a w.

Definition bind {A B} (m : M A) (k : A -> M B) : M B :=
  fun w => match m w with
           | Done a w' => k a w'
           | Panic msg => Panic msg
           end.

Notation "'do' x <- m ; k" := (bind m (fun x => k))
  (at level 10, x name, m at level 100, k at level 200).

(** [raw w] is the next raw draw, [advance w] the environment after it. *)
Definition raw (w : World) : Z := seq w (pos w).
Definition advance (w : World) : World :=
  mkWorld (seq w) (S (pos w)) (prng w) (clock w) (tick w) (zone w).

(** ** time *)

Inductive Location : Type := UTC | Local (offset : Z -> Z).

Record Time : Type := mkTime {
  unixNanos : Z;      (* nanoseconds since the Unix epoch, unbounded *)
  loc : Location
}.

Definition Nanosecond : Z := 1.
Definition Second : Z := 1000000000 * Nanosecond.
Definition Minute : Z := 60 * Second.

(** The zero [time.Time]: January 1, year 1, 00:00:00 UTC. *)
Definition zeroTime : Time := mkTime (-62135596800 * Second) UTC.

Module time.

Definition Now : M Time := fun w =>
  Done (mkTime (clock w (tick w)) (Local (zone w)))
       (mkWorld (seq w) (pos w) (prng w) (clock w) (S (tick w)) (zone w)).

Definition Unix (t : Time) : Z := unixNanos t / Second.
Definition UnixNano (t : Time) : Z := wrap64 (unixNanos t).
Definition Add (t : Time) (d : Z) : Time := mkTime (unixNanos t + d) (loc t).
Definition In_UTC (t : Time) : Time := mkTime (unixNanos t) UTC.

Definition offsetOf (t : Time) : Z :=
  match loc t with
  | UTC => 0
  | Local off => off (Unix t)
  end.

(** Seconds since the epoch on the clock of the time's location. *)
Definition localSeconds (t : Time) : Z := Unix t + offsetOf t.

(** Civil date (year, month, day) of a day number counted from
    1970-01-01, in the proleptic Gregorian calendar. *)
Definition civil (days : Z) : Z * Z * Z :=
  let z := days + 719468 in
  let era := z / 146097 in
  let doe := z - era * 146097 in
  let yoe := (doe - doe / 1460 + doe / 36524 - doe / 146096) / 365 in
  let doy := doe - (365 * yoe + yoe / 4 - yoe / 100) in
  let mp := (5 * doy + 2) / 153 in
  let d := doy - (153 * mp + 2) / 5 + 1 in
  let m := if mp <? 10 then mp + 3 else mp - 9 in
  let y := yoe + era * 400 in
  (if m <=? 2 then y + 1 else y, m, d).

Definition Year (t : Time) : Z := (civil (localSeconds t / 86400)).1.1.
Definition Month (t : Time) : Z := (civil (localSeconds t / 86400)).1.2.
Definition Day (t : Time) : Z := (civil (localSeconds t / 86400)).2.
Definition Hour (t : Time) : Z := (localSeconds t mod 86400) / 3600.
Definition Minute (t : Time) : Z := ((localSeconds t mod 86400) mod 3600) / 60.
Definition Second (t : Time) : Z := (localSeconds t mod 86400) mod 60.

Definition longMonthNames : list string :=
  ["January"; "February"; "March"; "April"; "May"; "June"; "July";
   "August"; "September"; "October"; "November"; "December"].

Definition shortMonthNames : list string :=
  ["Jan"; "Feb"; "Mar"; "Apr"; "May"; "Jun"; "Jul"; "Aug"; "Sep"; "Oct";
   "Nov"; "Dec"].

Definition monthName (names : list string) (m : Z) : string :=
  default EmptyString (names !! Z.to_nat (m - 1)).

(** [appendInt]: decimal, zero-padded on the left to [width] digits. *)
Definition appendInt (x : Z) (width : nat) : string :=
  let digits := itoa (Z.abs x) in
  (if x <? 0 then "-" else "") +:+
  zeros (width - String.length digits) +:+ digits.

(** The layout elements of [Time.Format] whose value is a number or a
    month name. *)
Inductive std : Type :=
| stdLongMonth | stdMonth | stdNumMonth | stdZeroMonth
| stdDay | stdZeroDay
| stdHour | stdHour12 | stdZeroHour12
| stdMinute | stdZeroMinute
| stdSecond | stdZeroSecond
| stdLongYear | stdYear.

Definition isLower (s : string) : bool :=
  match s with
  | EmptyString => false
  | String c _ =>
    let n := Z.of_nat (nat_of_ascii c) in (97 <=? n) && (n <=? 122)
  end.

(** [stdAt layout]: the layout element [layout] starts with, and its
    length (the case analysis of [nextStdChunk] at one position). *)
Definition stdAt (layout : string) : option (std * nat) :=
  if String.prefix "January" layout then Some (stdLongMonth, 7%nat)
  else if String.prefix "Jan" layout
       then (if isLower (String.substring 3 1 layout) then None
             else Some (stdMonth, 3%nat))
  else if String.prefix "01" layout then Some (stdZeroMonth, 2%nat)
  else if String.prefix "02" layout then Some (stdZeroDay, 2%nat)
  else if String.prefix "03" layout then Some (stdZeroHour12, 2%nat)
  else if String.prefix "04" layout then Some (stdZeroMinute, 2%nat)
  else if String.prefix "05" layout then Some (stdZeroSecond, 2%nat)
  else if String.prefix "06" layout then Some (stdYear, 2%nat)
  else if String.prefix "15" layout then Some (stdHour, 2%nat)
  else if String.prefix "1" layout then Some (stdNumMonth, 1%nat)
  else if String.prefix "2006" layout then Some (stdLongYear, 4%nat)
  else if String.prefix "2" layout then Some (stdDay, 1%nat)
  else if String.prefix "3" layout then Some (stdHour12, 1%nat)
  else if String.prefix "4" layout then Some (stdMinute, 1%nat)
  else if String.prefix "5" layout then Some (stdSecond, 1%nat)
  else None.

Definition hour12 (h : Z) : Z :=
  let hr := h mod 12 in if hr =? 0 then 12 else hr.

Definition formatStd (t : Time) (e : std) : string :=
  match e with
  | stdLongMonth => monthName longMonthNames (Month t)
  | stdMonth => monthName shortMonthNames (Month t)
  | stdNumMonth => appendInt (Month t) 0
  | stdZeroMonth => appendInt (Month t) 2
  | stdDay => appendInt (Day t) 0
  | stdZeroDay => appendInt (Day t) 2
  | stdHour => appendInt (Hour t) 2
  | stdHour12 => appendInt (hour12 (Hour t)) 0
  | stdZeroHour12 => appendInt (hour12 (Hour t)) 2
  | stdMinute => appendInt (Minute t) 0
  | stdZeroMinute => appendInt (Minute t) 2
  | stdSecond => appendInt (Second t) 0
  | stdZeroSecond => appendInt (Second t) 2
  | stdLongYear => appendInt (Year t) 4
  | stdYear => appendInt (Year t mod 100) 2
  end.

(** [formatFrom t skip layout]: the layout is read left to right; [skip]
    counts the bytes of the element just formatted that are still to be
    passed over.  Bytes that start no element are copied. *)
Fixpoint formatFrom (t : Time) (skip : nat) (layout : string) : string :=
  match layout with
  | EmptyString => EmptyString
  | String c rest =>
      match skip with
      | S k => formatFrom t k rest
      | O =>
          match stdAt layout with
          | Some (e, n) => formatStd t e +:+ formatFrom t (Nat.pred n) rest
          | None => String c (formatFrom t O rest)
          end
      end
  end.

(** [Time.Format], for layouts made of the elements of [std] and literal
    text; week days, AM/PM marks, zone names and offsets, fractional
    seconds and space padding are outside this model (the generators use
    none of them). *)
Definition Format (t : Time) (layout : string) : string :=
  formatFrom t O layout.

End time.

(** ** math/rand *)

Module rand.

(** [rand.Seed]: the source restarts on the stream of the seed. *)
Definition Seed (seed : Z) : M unit := fun w =>
  Done tt (mkWorld (prng w seed) O (prng w) (clock w) (tick w) (zone w)).

(** [rand.Uint32]: a draw from [0, 2^32). *)
Definition Uint32 : M Z := fun w => Done (raw w mod 2 ^ 32) (advance w).

(** [rand.Intn n]: a draw from [0, n); panics if [n <= 0]. *)
Definition Intn (n : Z) : M Z := fun w =>
  if n <=? 0 then Panic "invalid argument to Intn"
  else Done (raw w mod n) (advance w).

(** [rand.Int63n n]: a draw from [0, n); panics if [n <= 0]. *)
Definition Int63n (n : Z) : M Z := fun w =>
  if n <=? 0 then Panic "invalid argument to Int63n"
  else Done (raw w mod n) (advance w).

(** [rand.Read] into a fresh slice of [n] bytes. *)
Fixpoint Read (n : nat) : M (list Z) :=
  match n with
  | O => ret []
  | S n' => fun w =>
      match Read n' (advance w) with
      | Done bs w' => Done (raw w mod 256 :: bs) w'
      | Panic msg => Panic msg
      end
  end.

End rand.

(** ** net *)

(** A [net.IP] as this program builds it: the nil slice (zero value of a
    record field) or the result of [net.IPv4]. *)
Inductive IP : Type :=
| IPnil
| IPv4addr (a b c d : Z).

Module net.

Definition IPv4 (a b c d : Z) : IP := IPv4addr a b c d.

(** [IP.String]: dotted quad; the nil address prints as [<nil>]. *)
Definition String_ (ip : IP) : string :=
  match ip with
  | IPnil => "<nil>"
  | IPv4addr a b c d => itoa a +:+ "." +:+ itoa b +:+ "." +:+ itoa c +:+
   "." +:+ itoa d
  end.

End net.

(** Conversion to [byte]: the low eight bits. *)
Definition byte (z : Z) : Z := Z.land z 255.

(** ** pkg/random *)

Module random.

(** [IPv4] returns a random address from the IPv4 address space. *)
Definition IPv4 : M IP :=
  do u32 <- rand.Uint32;
  ret (net.IPv4 (byte (Z.land u32 255))
                (byte (Z.land (Z.shiftr u32 8) 255))
                (byte (Z.land (Z.shiftr u32 16) 255))
                (byte (Z.land (Z.shiftr u32 24) 255))).

(** [Port] returns a random integer from 0 to 65535. *)
Definition Port : M Z := rand.Intn 65536.

Definition Randomtime : M string :=
  do t0 <- time.Now;
  do _u <- rand.Seed (time.UnixNano t0);
  do now <- time.Now;
  let duration := mul64 20 Minute in
  let lowerBound := time.Add now (neg64 duration) in
  do k <- rand.Int63n (sub64 (time.UnixNano now) (time.UnixNano lowerBound));
  let randomTimestamp := time.Add lowerBound (mul64 k Nanosecond) in
  let formattedTime := time.Format randomTimestamp "15:04:05" in
  ret formattedTime.

End random.

(** ** Results with errors *)

Inductive result (E A : Type) : Type :=
| Ok (a : A)
| Err (e : E).
Arguments Ok {E A} a.
Arguments Err {E A} e.

Definition rbind {E A B} (r : result E A) (k : A -> result E B) : result E B :=
  match r with
  | Ok a => k a
  | Err e => Err e
  end.

Notation "'try' x <- r ; k" := (rbind r (fun x => k))
  (at level 10, x name, r at level 100, k at level 200).

(** ** text/template

    The part of the template language the generators use: literal text,
    actions that print a chain of fields and methods applied to the data
    value (the last one possibly with arguments: string constants or field
    chains), and [with] ... [end] blocks. *)

Module template.

(** Data values the templates are executed on. *)
Inductive value : Type :=
| VString (s : string)
| VInt (z : Z)
| VIP (ip : IP)
| VTime (t : Time)
| VStruct (fields : string -> option value)
| VOpaque.

Inductive operand : Type :=
| OField (chain : list string)     (* [.A.B]; the empty chain is [.] *)
| OString (s : string).            (* a quoted string constant *)

Record command : Type := mkCommand {
  target : list string;
  args : list operand
}.

Inductive node : Type :=
| NText (s : string)
| NAction (c : command)
| NWith (c : command) (body : list node).

Record Template : Type := mkTemplate {
  name : string;
  tree : list node
}.

(** *** Parsing *)

Inductive ParseError : Type :=
| UnclosedAction
| MissingValue
| BadOperand (word : string)
| UnexpectedEnd
| UnclosedWith.

Inductive item : Type :=
| IText (s : string)
| IAction (s : string).

Definition snoc (s : string) (c : ascii) : string := s +:+ String c EmptyString.

Definition isQuote (c : ascii) : bool := Ascii.eqb c (ascii_of_nat 34).

Definition consText (acc : string) (r : result ParseError (list item))
  : result ParseError (list item) :=
  match acc with
  | EmptyString => r
  | _ => try l <- r; Ok (IText acc :: l)
  end.

(** The lexer: text up to the left delimiter, then the action up to the
    right delimiter; delimiters inside a quoted string do not count.
    [skip] passes over the second byte of a delimiter. *)
Fixpoint lex (inAction inQuote : bool) (skip : nat) (acc : string) (s : string)
  : result ParseError (list item) :=
  match s with
  | EmptyString => if inAction then Err UnclosedAction else consText acc (Ok [])
  | String c rest =>
      match skip with
      | S k => lex inAction inQuote k acc rest
      | O =>
          if inAction then
            if inQuote then lex true (negb (isQuote c)) O (snoc acc c) rest
            else if String.prefix "}}" s
                 then try l <- lex false false 1 EmptyString rest; Ok (IAction acc :: l)
                 else lex true (isQuote c) O (snoc acc c) rest
          else
            if String.prefix "{{" s
            then consText acc (lex true false 1 EmptyString rest)
            else lex false false O (snoc acc c) rest
      end
  end.

Definition consWord (acc : string) (l : list string) : list string :=
  match acc with
  | EmptyString => l
  | _ => acc :: l
  end.

(** The words of an action, separated by spaces outside quoted strings. *)
Fixpoint words (inQuote : bool) (acc : string) (s : string) : list string :=
  match s with
  | EmptyString => consWord acc []
  | String c rest =>
      if inQuote then words (negb (isQuote c)) (snoc acc c) rest
      else if Ascii.eqb c " " then consWord acc (words false EmptyString rest)
      else words (isQuote c) (snoc acc c) rest
  end.

Fixpoint splitDots (acc : string) (s : string) : list string :=
  match s with
  | EmptyString => [acc]
  | String c rest =>
      if Ascii.eqb c "." then acc :: splitDots EmptyString rest
      else splitDots (snoc acc c) rest
  end.

Definition isAlnum (c : ascii) : bool :=
  let n := Z.of_nat (nat_of_ascii c) in
  ((48 <=? n) && (n <=? 57)) || ((65 <=? n) && (n <=? 90))
  || ((97 <=? n) && (n <=? 122)) || (n =? 95).

Fixpoint allAlnum (s : string) : bool :=
  match s with
  | EmptyString => true
  | String c s' => isAlnum c && allAlnum s'
  end.

Definition isName (s : string) : bool :=
  match s with
  | EmptyString => false
  | _ => allAlnum s
  end.

(** A field chain [.A.B.C]; a lone dot is the empty chain. *)
Definition parseChain (word : string) : option (list string) :=
  match word with
  | String "." EmptyString => Some []
  | String "." rest =>
      let names := splitDots EmptyString rest in
      if forallb isName names then Some names else None
  | _ => None
  end.

Fixpoint dropLast (s : string) : option string :=
  match s with
  | EmptyString => None
  | String c EmptyString => if isQuote c then Some EmptyString else None
  | String c rest => option_map (String c) (dropLast rest)
  end.

Definition parseOperand (word : string) : result ParseError operand :=
  match parseChain word with
  | Some chain => Ok (OField chain)
  | None =>
      match word with
      | String c rest =>
          if isQuote c
          then match dropLast rest with
               | Some s => Ok (OString s)
               | None => Err (BadOperand word)
               end
          else Err (BadOperand word)
      | EmptyString => Err (BadOperand word)
      end
  end.

Fixpoint parseOperands (ws : list string) : result ParseError (list operand) :=
  match ws with
  | [] => Ok []
  | w :: ws' =>
      try o <- parseOperand w;
      try os <- parseOperands ws';
      Ok (o :: os)
  end.

Definition parseCommand (ws : list string) : result ParseError command :=
  match ws with
  | [] => Err MissingValue
  | w :: ws' =>
      match parseChain w with
      | Some chain => try os <- parseOperands ws'; Ok (mkCommand chain os)
      | None => Err (BadOperand w)
      end
  end.

Inductive token : Type :=
| TText (s : string)
| TAction (c : command)
| TWith (c : command)
| TEnd.

Definition parseItem (i : item) : result ParseError token :=
  match i with
  | IText s => Ok (TText s)
  | IAction s =>
      match words false EmptyString s with
      | ["end"] => Ok TEnd
      | "with" :: ws => try c <- parseCommand ws; Ok (TWith c)
      | ws => try c <- parseCommand ws; Ok (TAction c)
      end
  end.

Fixpoint parseItems (l : list item) : result ParseError (list token) :=
  match l with
  | [] => Ok []
  | i :: l' =>
      try t <- parseItem i;
      try ts <- parseItems l';
      Ok (t :: ts)
  end.

(** Nesting: [stack] holds the open [with] blocks, innermost first, each
    with the nodes that precede it; [cur] the nodes of the current block,
    last first. *)
Fixpoint build (toks : list token) (stack : list (command * list node))
  (cur : list node) : result ParseError (list node) :=
  match toks with
  | [] => match stack with
          | [] => Ok (rev cur)
          | _ :: _ => Err UnclosedWith
          end
  | TText s :: r => build r stack (NText s :: cur)
  | TAction c :: r => build r stack (NAction c :: cur)
  | TWith c :: r => build r ((c, cur) :: stack) []
  | TEnd :: r =>
      match stack with
      | [] => Err UnexpectedEnd
      | (c, outer) :: st => build r st (NWith c (rev cur) :: outer)
      end
  end.

(** [template.New(name).Parse(text)] *)
Definition Parse (name text : string) : result ParseError Template :=
  try items <- lex false false O EmptyString text;
  try toks <- parseItems items;
  try nodes <- build toks [] [];
  Ok (mkTemplate name nodes).

(** *** Execution *)

Inductive ExecError : Type :=
| NoField (name : string)          (* can't evaluate field *)
| HasArguments (name : string)     (* a field given arguments *)
| WrongArguments (name : string)   (* wrong number or type of arguments *)
| NotPrinted.                      (* a value this model does not print *)

(** One field or method name applied to a receiver. *)
Definition evalField (recv : value) (fname : string) (actuals : list value)
  : result ExecError value :=
  match recv with
  | VStruct fields =>
      match fields fname with
      | Some v => match actuals with
                  | [] => Ok v
                  | _ :: _ => Err (HasArguments fname)
                  end
      | None => Err (NoField fname)
      end
  | VTime t =>
      if String.eqb fname "UTC" then
        match actuals with
        | [] => Ok (VTime (time.In_UTC t))
        | _ => Err (WrongArguments fname)
        end
      else if String.eqb fname "Unix" then
        match actuals with
        | [] => Ok (VInt (time.Unix t))
        | _ => Err (WrongArguments fname)
        end
      else if String.eqb fname "Year" then
        match actuals with
        | [] => Ok (VInt (time.Year t))
        | _ => Err (WrongArguments fname)
        end
      else if String.eqb fname "Format" then
        match actuals with
        | [VString layout] => Ok (VString (time.Format t layout))
        | _ => Err (WrongArguments fname)
        end
      else Err (NoField fname)
  | _ => Err (NoField fname)
  end.

(** A chain: every name but the last is evaluated without arguments. *)
Fixpoint evalChain (recv : value) (chain : list string) (actuals : list value)
  : result ExecError value :=
  match chain with
  | [] => Ok recv
  | [f] => evalField recv f actuals
  | f :: rest => try v <- evalField recv f []; evalChain v rest actuals
  end.

Definition evalOperand (dot : value) (o : operand) : result ExecError value :=
  match o with
  | OField chain => evalChain dot chain []
  | OString s => Ok (VString s)
  end.

Fixpoint evalOperands (dot : value) (os : list operand)
  : result ExecError (list value) :=
  match os with
  | [] => Ok []
  | o :: os' =>
      try v <- evalOperand dot o;
      try vs <- evalOperands dot os';
      Ok (v :: vs)
  end.

Definition evalCommand (dot : value) (c : command) : result ExecError value :=
  try actuals <- evalOperands dot (args c);
  evalChain dot (target c) actuals.

(** What an action writes for its value. *)
Definition printValue (v : value) : result ExecError string :=
  match v with
  | VString s => Ok s
  | VInt z => Ok (itoa z)
  | VIP ip => Ok (net.String_ ip)
  | _ => Err NotPrinted
  end.

(** The truth of a value, as [with] tests it: empty strings, zero and
    empty slices are false. *)
Definition truth (v : value) : bool :=
  match v with
  | VString EmptyString => false
  | VInt 0 => false
  | VIP IPnil => false
  | _ => true
  end.

Fixpoint execNode (dot : value) (n : node) : result ExecError string :=
  match n with
  | NText s => Ok s
  | NAction c => try v <- evalCommand dot c; printValue v
  | NWith c body =>
      try v <- evalCommand dot c;
      if truth v
      then (fix execList (ns : list node) : result ExecError string :=
              match ns with
              | [] => Ok EmptyString
              | n' :: ns' =>
                  try s1 <- execNode v n';
                  try s2 <- execList ns';
                  Ok (s1 +:+ s2)
              end) body
      else Ok EmptyString
  end.

Fixpoint execList (dot : value) (ns : list node) : result ExecError string :=
  match ns with
  | [] => Ok EmptyString
  | n :: ns' =>
      try s1 <- execNode dot n;
      try s2 <- execList dot ns';
      Ok (s1 +:+ s2)
  end.

(** [t.Execute(&buf, data)]: the bytes written, or the error. *)
Definition Execute (t : Template) (data : value) : result ExecError string :=
  execList data (tree t).

End template.

(** ** Errors and configuration *)

(** The three kinds of error of the generator framework. *)
Inductive error : Type :=
| ConfigError (msg : string)
| TemplateError (e : template.ParseError)
| RenderError (e : template.ExecError).

(** [go-ucfg] is an external library and the configuration structures of
    the formats have no options: a configuration is represented by what
    unpacking it into the format's structure reports. *)
Module ucfg.

Record Config : Type := mkConfig { unpackError : option string }.

Definition Unpack (cfg : Config) : option string := unpackError cfg.

End ucfg.

Definition panic {A} (msg : string) : M A := fun _ => Panic msg.

(** [len(s)] as a Go [int]. *)
Definition len {A} (s : list A) : Z := Z.of_nat (length s).

(** [s[i]]: indexing panics outside the bounds. *)
Definition index {A} (s : list A) (i : Z) : M A :=
  if i <? 0 then panic "index out of range"
  else match s !! Z.to_nat i with
       | Some x => ret x
       | None => panic "index out of range"
       end.

(** [s[rand.Intn(len(s))]] *)
Definition pick {A} (s : list A) : M A :=
  do i <- rand.Intn (len s);
  index s i.

(** ** Fortinet firewall generator *)

Module firewall.

(** [Name] is the name used in the configuration file and the registry. *)
Definition Name : string := "fortinet:firewall".

Definition eventUserTemplate : string :=
  "date={{.Date.UTC.Format " +:+ dquote +:+ "2006-01-02" +:+ dquote +:+
  "}} time={{.Timestamp}} devname=" +:+ dquote +:+ "{{.DevName}}" +:+
  dquote +:+ " devid=" +:+ dquote +:+ "{{.DevId}}" +:+ dquote +:+
  " logid=" +:+ dquote +:+ "{{.LogId}}" +:+ dquote +:+ " type=" +:+
  dquote +:+ "event" +:+ dquote +:+ " subtype=" +:+ dquote +:+ "user" +:+
  dquote +:+ " level=" +:+ dquote +:+ "{{.Level}}" +:+ dquote +:+
  " vd=" +:+ dquote +:+ "{{.Vd}}" +:+ dquote +:+
  " eventtime={{.Date.Unix}} tz=" +:+ dquote +:+ "{{.Timezone}}" +:+
  dquote +:+ " logdesc=" +:+ dquote +:+
  "FSSO logon authentication status" +:+ dquote +:+
  " srcip={{.SrcIp}} user=" +:+ dquote +:+ "{{.User}}" +:+ dquote +:+
  " server=" +:+ dquote +:+ "{{.Server}}" +:+ dquote +:+ " action=" +:+
  dquote +:+ "FSSO-logon" +:+ dquote +:+ " msg=" +:+ dquote +:+
  "FSSO-logon event from FSSO_{{.Server}}: user {{.User}} logged on {{.SrcIp}}" +:+
  dquote.

Definition eventSystemTemplate : string :=
  "date={{.Date.UTC.Format " +:+ dquote +:+ "2006-01-02" +:+ dquote +:+
  "}} time={{.Timestamp}} devname=" +:+ dquote +:+ "{{.DevName}}" +:+
  dquote +:+ " devid=" +:+ dquote +:+ "{{.DevId}}" +:+ dquote +:+
  " logid=" +:+ dquote +:+ "{{.LogId}}" +:+ dquote +:+ " type=" +:+
  dquote +:+ "event" +:+ dquote +:+ " subtype=" +:+ dquote +:+ "system" +:+
  dquote +:+ " level=" +:+ dquote +:+ "{{.Level}}" +:+ dquote +:+
  " vd=" +:+ dquote +:+ "{{.Vd}}" +:+ dquote +:+
  " eventtime={{.Date.Unix}} tz=" +:+ dquote +:+ "{{.Timezone}}" +:+
  dquote +:+ " logdesc=" +:+ dquote +:+
  "FortiSandbox AV database updated" +:+ dquote +:+ " version=" +:+
  dquote +:+ "1.522479" +:+ dquote +:+ " msg=" +:+ dquote +:+
  "FortiSandbox AV database updated" +:+ dquote.

Definition utmDnsTemplate : string :=
  "date={{.Date.UTC.Format " +:+ dquote +:+ "2006-01-02" +:+ dquote +:+
  "}} time={{.Timestamp}} devname=" +:+ dquote +:+ "{{.DevName}}" +:+
  dquote +:+ " devid=" +:+ dquote +:+ "{{.DevId}}" +:+ dquote +:+
  " logid=" +:+ dquote +:+ "{{.LogId}}" +:+ dquote +:+ " type=" +:+
  dquote +:+ "utm" +:+ dquote +:+ " subtype=" +:+ dquote +:+ "dns" +:+
  dquote +:+ " eventtype=" +:+ dquote +:+ "dns-query" +:+ dquote +:+
  " level=" +:+ dquote +:+ "{{.Level}}" +:+ dquote +:+ " vd=" +:+
  dquote +:+ "{{.Vd}}" +:+ dquote +:+ " eventtime={{.Date.Unix}} tz=" +:+
  dquote +:+ "{{.Timezone}}" +:+ dquote +:+
  " policyid={{.PolicyId}} sessionid={{.SessionId}} srcip={{.SrcIp}} srcport={{.SrcPort}} srcintf=" +:+
  dquote +:+ "{{.Interface1}}" +:+ dquote +:+ " srcintfrole=" +:+
  dquote +:+ "{{.InterfaceRole1}}" +:+ dquote +:+
  " dstip={{.DstIp}} dstport=53 dstintf=" +:+ dquote +:+
  "{{.Interface2}}" +:+ dquote +:+ " dstintfrole=" +:+ dquote +:+
  "{{.InterfaceRole2}}" +:+ dquote +:+ " proto={{.Protocol}} profile=" +:+
  dquote +:+ "{{.Server}}" +:+ dquote +:+ " xid={{.XId}} qname=" +:+
  dquote +:+ "{{.QueryName}}" +:+ dquote +:+ " qtype=" +:+ dquote +:+
  "{{.QueryType}}" +:+ dquote +:+ " qtypeval=1 qclass=" +:+ dquote +:+
  "IN" +:+ dquote.

Definition trafficForwardTemplate : string :=
  "date={{.Date.UTC.Format " +:+ dquote +:+ "2006-01-02" +:+ dquote +:+
  "}} time={{.Timestamp}} devname=" +:+ dquote +:+ "{{.DevName}}" +:+
  dquote +:+ " devid=" +:+ dquote +:+ "{{.DevId}}" +:+ dquote +:+
  " logid=" +:+ dquote +:+ "{{.LogId}}" +:+ dquote +:+ " type=" +:+
  dquote +:+ "traffic" +:+ dquote +:+ " subtype=" +:+ dquote +:+
  "forward" +:+ dquote +:+ " level=" +:+ dquote +:+ "{{.Level}}" +:+
  dquote +:+ " vd=" +:+ dquote +:+ "{{.Vd}}" +:+ dquote +:+
  " eventtime={{.Date.Unix}} srcip={{.SrcIp}} srcport={{.SrcPort}} srcintf=" +:+
  dquote +:+ "{{.Interface1}}" +:+ dquote +:+ " srcintfrole=" +:+
  dquote +:+ "{{.InterfaceRole1}}" +:+ dquote +:+
  " dstip={{.DstIp}} dstport={{.DstPort}} dstintf=" +:+ dquote +:+
  "{{.Interface2}}" +:+ dquote +:+ " dstintfrole=" +:+ dquote +:+
  "{{.InterfaceRole2}}" +:+ dquote +:+
  " sessionid={{.SessionId}} proto={{.Protocol}} action=" +:+ dquote +:+
  "{{.TrafficAction}}" +:+ dquote +:+
  " policyid={{.PolicyId}} policytype=" +:+ dquote +:+ "policy" +:+
  dquote +:+ " service=" +:+ dquote +:+ "SNMP" +:+ dquote +:+
  " dstcountry=" +:+ dquote +:+ "Reserved" +:+ dquote +:+
  " srccountry=" +:+ dquote +:+ "Reserved" +:+ dquote +:+ " trandisp=" +:+
  dquote +:+ "noop" +:+ dquote +:+
  " duration={{.Duration}} sentbyte={{.SentBytes}} rcvdbyte={{.SentBytes}} sentpkt={{.SentPackets}} appcat=" +:+
  dquote +:+ "unscanned" +:+ dquote +:+
  " crscore=30 craction=131072 crlevel=" +:+ dquote +:+ "high" +:+ dquote.

Definition devices : list string :=
  ["Lakewood"; "Midvale"; "Brookside"; "Holloway"; "Fairview"; "Westport";
   "Elmswood"; "Ridgefield"; "Pinehurst"; "Stonebridge"; "Mapleton";
   "Riverside"; "Graysville"; "Windermere"; "Briarcliff"; "Oakridge";
   "Highland"; "Copperfield"; "Woodhaven"; "Silverton"; "Rosewood";
   "Cedarcrest"; "Ashford"; "Elmwood"; "Woodbury"; "Springfield";
   "Ravenswood"; "Stonegate"; "Brookhaven"; "Southgate"; "Seabrook";
   "Edgewood"; "Greenfield"; "Meadowbrook"; "Bellevue"; "Clarksville";
   "Oakwood"; "Ridgemont"; "Crystal_Lake"; "Riverview"; "Whispering_Pines";
   "Forest_Hill"; "Sunnydale"; "Mountview"; "Woodlake"; "Baywood";
   "Brentwood"; "Lincolnwood"; "Summitville"; "Elm_Grove"].

Definition devid : list string :=
  ["Lakew"; "Midva"; "Broos"; "Hollo"; "Fairv"; "Westp"; "Elmsw"; "Ridge";
   "Pineh"; "Stonb"; "Maple"; "Rivers"; "Grayv"; "Windm"; "Briac"; "Oakri";
   "Highl"; "Copfi"; "Woodh"; "Silve"; "Rosew"; "Cedcr"; "Ashfo"; "Elmwo";
   "Woodb"; "Sprin"; "Raven"; "Stoga"; "Brooh"; "South"; "Seabr"; "Edgew";
   "Green"; "Meado"; "Belle"; "Clark"; "Oakwo"; "Ridgm"; "Cryla"; "Rivew";
   "Whisp"; "Foreh"; "Sunny"; "Mount"; "Woodl"; "Baywo"; "Brewd"; "Lincw";
   "Summi"; "Elmgv"].

Definition users : list string :=
  ["Liam_Walters"; "Emma_Douglas"; "Noah_Hamilton"; "Olivia_Stevens";
   "Elijah_Baker"; "Ava_Reynolds"; "James_Thompson"; "Sophia_Parker";
   "Lucas_Bennett"; "Isabella_Brooks"; "Mason_Rogers"; "Mia_Campbell";
   "Ethan_Phillips"; "Amelia_Bell"; "Alexander_Carter"; "Charlotte_Adams";
   "Henry_Patterson"; "Harper_Wright"; "Sebastian_Cooper"; "Evelyn_Gray";
   "Jack_Hughes"; "Lily_Ross"; "Owen_Morris"; "Ella_Hayes";
   "Daniel_Peterson"; "Aria_Myers"; "Samuel_Long"; "Chloe_Collins";
   "Matthew_Hughes"; "Grace_Cook"; "Wyatt_Warren"; "Scarlett_Reed";
   "Caleb_Bryant"; "Penelope_Rogers"; "Isaac_Murphy"; "Nora_Jenkins";
   "Jacob_Cunningham"; "Hazel_Clark"; "Levi_Morgan"; "Riley_Perry";
   "Nathaniel_Foster"; "Zoey_Ford"; "Joshua_Harrison"; "Lillian_Sullivan";
   "David_McCarthy"; "Avery_Hart"; "Andrew_Walker"; "Stella_Price";
   "Thomas_Ward"; "Hannah_Hall"].

Definition levels : list string :=
  ["warning"; "notice"; "information"; "error"].

Definition interfaces : list string :=
  ["int0"; "int1"; "int2"; "int3"; "int4"; "int5"; "int6"; "int7"].

Definition roles : list string :=
  ["lan"; "wan"; "internal"; "external"; "inbound"; "outbound"].

Definition queries : list string :=
  ["www.silverpinevalley.com"; "www.brickstoneridge.net";
   "www.oakwoodgrove.org"; "www.bluewaterhaven.co";
   "www.copperhollow.info"; "www.windyriverplains.com";
   "www.crystalbayvillage.net"; "www.ironwoodcove.org";
   "www.sunsetbluffresort.co"; "www.whisperinghillspoint.info";
   "www.mapleridgeranch.com"; "www.goldenpeakfarms.net";
   "www.riverviewmeadows.org"; "www.stonecreekwoods.co";
   "www.briarwoodcrossing.info"; "www.highlandgrovesprings.com";
   "www.greenfieldretreat.net"; "www.silverlakehollow.org";
   "www.rosewoodvista.co"; "www.ashforddunes.info";
   "www.willowbrookcourt.com"; "www.oakridgefalls.net";
   "www.copperfieldgrove.org"; "www.windermerebay.co";
   "www.meadowbrookhaven.info"; "www.bellavistaacres.com";
   "www.ridgemontestates.net"; "www.sunnydaleshores.org";
   "www.lakewoodreserves.co"; "www.westportpines.info";
   "www.elmswoodmeadow.com"; "www.ridgefieldplaza.net";
   "www.pinehurstcove.org"; "www.stonebridgeflats.co";
   "www.mapletonlodge.info"; "www.graysvillemanor.com";
   "www.windermerepoint.net"; "www.briarcliffheights.org";
   "www.oakridgebay.co"; "www.highlandcrossing.info";
   "www.copperfieldterrace.com"; "www.woodhavenhills.net";
   "www.silvertonview.org"; "www.rosewoodvalley.co";
   "www.cedarcrestgrove.info"; "www.ashfordpeaks.com";
   "www.elmwoodlakes.net"; "www.woodburyridge.org";
   "www.springfieldbluff.co"].

Definition queryTypes : list string :=
  ["A"; "AAAA"].

Definition servers : list string :=
  ["Zeus_prod"; "Hera_test"; "Poseidon_dev"; "Demeter_prod"; "Athena_dev";
   "Apollo_test"; "Artemis_prod"; "Ares_dev"; "Aphrodite_test";
   "Hephaestus_prod"; "Hermes_dev"; "Hestia_test"; "Dionysus_prod";
   "Hades_dev"; "Persephone_test"; "Hecate_prod"; "Gaia_dev";
   "Cronus_test"; "Rhea_prod"; "Eros_dev"; "Helios_test"; "Selene_prod";
   "Eos_dev"; "Nike_test"; "Nemesis_prod"; "Iris_dev"; "Hypnos_test";
   "Thanatos_prod"; "Morpheus_dev"; "Tyche_test"; "Pan_prod"; "Eris_dev";
   "Hebe_test"; "Nyx_prod"; "Khione_dev"; "Themis_test"; "Harmonia_prod";
   "Phoebe_dev"; "Leto_test"; "Tethys_prod"; "Metis_dev"; "Aether_test";
   "Hemera_prod"; "Eurus_dev"; "Notus_test"; "Boreas_prod"; "Zephyrus_dev";
   "Styx_test"; "Phobos_prod"; "Deimos_dev"].

Definition trafficActions : list string :=
  ["deny"; "accept"].
Definition msgTemplates : list string :=
  [eventUserTemplate; eventSystemTemplate; utmDnsTemplate;
   trafficForwardTemplate].

Definition protocols : list Z := [6; 17].

(** [Firewall] holds the random fields for a firewall record. *)
Record Firewall : Type := mkFirewall {
  Timestamp : string;
  Date : Time;
  DevId : string;
  DevName : string;
  Direction : string;
  DstIp : IP;
  DstPort : Z;
  Duration : Z;
  Interface1 : string;
  Interface2 : string;
  InterfaceRole1 : string;
  InterfaceRole2 : string;
  Level : string;
  LogId : Z;
  PolicyId : Z;
  Protocol : Z;
  QueryName : string;
  QueryType : string;
  ReceivedBytes : Z;
  SentBytes : Z;
  SentPackets : Z;
  Server : string;
  SessionId : Z;
  SrcIp : IP;
  SrcPort : Z;
  Templates : list template.Template;
  Timezone : string;
  TrafficAction : string;
  User : string;
  Vd : string;
  XId : Z
}.

(** [&Firewall{}]: every field at its zero value. *)
Definition zero : Firewall :=
  mkFirewall "" zeroTime "" "" "" IPnil 0 0 "" "" "" "" "" 0 0 0 "" "" 0 0 0
             "" 0 IPnil 0 [] "" "" "" "" 0.

(** [f.Templates = ts] *)
Definition setTemplates (f : Firewall) (ts : list template.Template) : Firewall :=
  mkFirewall (Timestamp f) (Date f) (DevId f) (DevName f) (Direction f)
    (DstIp f) (DstPort f) (Duration f) (Interface1 f) (Interface2 f)
    (InterfaceRole1 f) (InterfaceRole2 f) (Level f) (LogId f) (PolicyId f)
    (Protocol f) (QueryName f) (QueryType f) (ReceivedBytes f) (SentBytes f)
    (SentPackets f) (Server f) (SessionId f) (SrcIp f) (SrcPort f) ts
    (Timezone f) (TrafficAction f) (User f) (Vd f) (XId f).

(** The record as the data value of a template: its exported fields by
    name. *)
Definition fields (f : Firewall) (fname : string) : option template.value :=
  let named := String.eqb fname in
  if named "Timestamp" then Some (template.VString (Timestamp f))
  else if named "Date" then Some (template.VTime (Date f))
  else if named "DevId" then Some (template.VString (DevId f))
  else if named "DevName" then Some (template.VString (DevName f))
  else if named "Direction" then Some (template.VString (Direction f))
  else if named "DstIp" then Some (template.VIP (DstIp f))
  else if named "DstPort" then Some (template.VInt (DstPort f))
  else if named "Duration" then Some (template.VInt (Duration f))
  else if named "Interface1" then Some (template.VString (Interface1 f))
  else if named "Interface2" then Some (template.VString (Interface2 f))
  else if named "InterfaceRole1" then Some (template.VString (InterfaceRole1 f))
  else if named "InterfaceRole2" then Some (template.VString (InterfaceRole2 f))
  else if named "Level" then Some (template.VString (Level f))
  else if named "LogId" then Some (template.VInt (LogId f))
  else if named "PolicyId" then Some (template.VInt (PolicyId f))
  else if named "Protocol" then Some (template.VInt (Protocol f))
  else if named "QueryName" then Some (template.VString (QueryName f))
  else if named "QueryType" then Some (template.VString (QueryType f))
  else if named "ReceivedBytes" then Some (template.VInt (ReceivedBytes f))
  else if named "SentBytes" then Some (template.VInt (SentBytes f))
  else if named "SentPackets" then Some (template.VInt (SentPackets f))
  else if named "Server" then Some (template.VString (Server f))
  else if named "SessionId" then Some (template.VInt (SessionId f))
  else if named "SrcIp" then Some (template.VIP (SrcIp f))
  else if named "SrcPort" then Some (template.VInt (SrcPort f))
  else if named "Templates" then Some template.VOpaque
  else if named "Timezone" then Some (template.VString (Timezone f))
  else if named "TrafficAction" then Some (template.VString (TrafficAction f))
  else if named "User" then Some (template.VString (User f))
  else if named "Vd" then Some (template.VString (Vd f))
  else if named "XId" then Some (template.VInt (XId f))
  else None.

Definition data (f : Firewall) : template.value := template.VStruct (fields f).

Definition randomize (f : Firewall) : M Firewall :=
  do timestamp <- random.Randomtime;
  do devName <- pick devices;
  do devId <- pick devid;
  do logId <- rand.Intn 10;
  let timezone := "-0500" in
  do date <- time.Now;
  let vd := "root" in
  do user <- pick users;
  do server <- pick servers;
  do srcIp <- random.IPv4;
  do srcPort <- random.Port;
  do dstIp <- random.IPv4;
  do dstPort <- random.Port;
  do policyId <- rand.Intn 256;
  do sessionId <- rand.Intn 65536;
  do interface1 <- pick interfaces;
  do interface2 <- pick interfaces;
  do interfaceRole1 <- pick roles;
  do interfaceRole2 <- pick roles;
  do protocol <- pick protocols;
  do queryName <- pick queries;
  do queryType <- pick queryTypes;
  do xId <- rand.Intn 256;
  do level <- pick levels;
  do trafficAction <- pick trafficActions;
  do sentPackets <- rand.Intn 65536;
  let sentBytes := mul64 sentPackets 1500 in
  do duration <- rand.Intn 1024;
  ret {| Timestamp := timestamp;
         Date := date;
         DevId := devId;
         DevName := devName;
         Direction := Direction f;
         DstIp := dstIp;
         DstPort := dstPort;
         Duration := duration;
         Interface1 := interface1;
         Interface2 := interface2;
         InterfaceRole1 := interfaceRole1;
         InterfaceRole2 := interfaceRole2;
         Level := level;
         LogId := logId;
         PolicyId := policyId;
         Protocol := protocol;
         QueryName := queryName;
         QueryType := queryType;
         ReceivedBytes := ReceivedBytes f;
         SentBytes := sentBytes;
         SentPackets := sentPackets;
         Server := server;
         SessionId := sessionId;
         SrcIp := srcIp;
         SrcPort := srcPort;
         Templates := Templates f;
         Timezone := timezone;
         TrafficAction := trafficAction;
         User := user;
         Vd := vd;
         XId := xId |}.

(** The loop of [New]: each source is parsed under the name of its index
    and appended to [f.Templates]; the first failure ends construction.
    The function map of package [generator] plays no part: no declared
    template calls a function. *)
Fixpoint compileFrom (i : Z) (sources : list string) (f : Firewall)
  : result error Firewall :=
  match sources with
  | [] => Ok f
  | v :: rest =>
      match template.Parse (itoa i) v with
      | Err e => Err (TemplateError e)
      | Ok t => compileFrom (i + 1) rest (setTemplates f (Templates f ++ [t]))
      end
  end.

(** [New], with the package variable [msgTemplates] as a parameter. *)
Definition NewFrom (sources : list string) (cfg : ucfg.Config)
  : M (result error Firewall) :=
  match ucfg.Unpack cfg with
  | Some msg => ret (Err (ConfigError msg))
  | None =>
      do f <- randomize zero;
      ret (compileFrom 0 sources f)
  end.

(** [New] is the factory for Firewall objects. *)
Definition New (cfg : ucfg.Config) : M (result error Firewall) :=
  NewFrom msgTemplates cfg.

(** [Next] produces the next firewall record: the bytes or the error, and
    the generator after the call. *)
Definition Next (f : Firewall) : M (result error string * Firewall) :=
  do i <- rand.Intn (len (Templates f));
  do t <- index (Templates f) i;
  match template.Execute t (data f) with
  | Err e => ret (Err (RenderError e), f)
  | Ok buf =>
      do f' <- randomize f;
      ret (Ok buf, f')
  end.

End firewall.

(** ** Citrix CEF generator *)

Module cef.

(** [Name] is the name of the generator in the configuration file and
    registry. *)
Definition Name : string := "citrix:cef".

Definition tmpl : string :=
  "{{.Timestamp.Format .TimeLayout}} <{{.Facility}}.{{.Priority}}> " +:+
  "{{.Addr}} " +:+
  "CEF:{{.CEFVersion}}|{{.Vendor}}|{{.Product}}|{{.Version}}|{{.Module}}|{{.Violation}}|{{.Severity}}|src={{.SrcAddr}} " +:+
  "{{with .Geo}}geolocation={{.}} {{end}}spt={{.SrcPort}} " +:+
  "method={{.Method}} request={{.Request}} msg={{.Message}} " +:+
  "cn1={{.EventID}} cn2={{.TxID}} cs1={{.Profile}} cs2={{.PPEID}} " +:+
  "cs3={{.SessID}} cs4={{.SeverityLabel}} cs5={{.Year}} {{with " +:+
  ".ViolationCategory}}cs6={{.}} {{end}}act={{.Action}}".

Definition timeLayouts : list string :=
  ["Jan 02 15:04:05"; "Jan 2 15:04:05"].

Definition facilities : list string :=
  ["auth"; "authpriv"; "cron"; "daemon"; "kern"; "lpr"; "mail"; "mark";
   "news"; "syslog"; "user"; "uucp"; "local0"; "local1"; "local2";
   "local3"; "local4"; "local5"; "local6"; "local7"].

Definition priorities : list string :=
  ["debug"; "info"; "notice"; "warning"; "warn"; "err"; "error"; "crit";
   "alert"; "emerg"; "panic"].

Definition vendors : list string :=
  ["Citrix"].

Definition products : list string :=
  ["NetScalar"].

Definition versions : list string :=
  ["NS10.0"; "NS11.0"].

Definition modules : list string :=
  ["APPFW"].

Definition violations : list string :=
  ["APPFW_FIELDCONSISTENCY"; "APPFW_SAFECOMMERCE";
   "APPFW_SAFECOMMERCE_XFORM"; "APPFW_SIGNATURE_MATCH"; "APPFW_STARTURL"].

Definition locations : list string :=
  [""; "Unknown"; "NorthAmerica.Altimoria.Corvax.CityCenter.*.*";
   "NorthAmerica.Florensia.Novath.TremorValley.*.*";
   "NorthAmerica.Gallania.Rovento.Sunridge.*.*";
   "NorthAmerica.Baltoria.Velzora.PolarisHeights.*.*";
   "NorthAmerica.Novadia.Quivera.FlamingRidge.*.*";
   "NorthAmerica.Xandria.Velmos.Riverstone.*.*";
   "NorthAmerica.Kestoria.Yalvaz.CrimsonHill.*.*";
   "NorthAmerica.Vollara.Zendar.AuroraPeaks.*.*";
   "NorthAmerica.Quintara.Pallaxa.SilverLake.*.*";
   "NorthAmerica.Morovia.Korvath.SolarisPlains.*.*";
   "NorthAmerica.Serenia.Ryland.Stormview.*.*";
   "NorthAmerica.Zyrenthia.Vortak.Ironcliff.*.*";
   "NorthAmerica.Valoria.Draconis.WildroseGlen.*.*";
   "NorthAmerica.Tarvonia.Felwind.ShadowGrove.*.*";
   "NorthAmerica.Lorasia.Velthra.Sunspire.*.*";
   "NorthAmerica.Talvaxia.Balaria.CrimsonFalls.*.*";
   "NorthAmerica.Elandria.Kovoria.Glintwood.*.*";
   "NorthAmerica.Orlanta.Zandor.Mistvale.*.*";
   "NorthAmerica.Valteris.Xanoris.ThunderValley.*.*";
   "NorthAmerica.Morlonia.Phaedra.EchoHaven.*.*";
   "NorthAmerica.Theria.Vestoria.TremorHollow.*.*";
   "NorthAmerica.Zarvath.Mystara.Glintwood.*.*";
   "NorthAmerica.Kalandor.Volvax.Silverstrand.*.*";
   "NorthAmerica.Olivar.Ventara.CrimsonMesa.*.*";
   "NorthAmerica.Theronia.Pyrax.ThunderRidge.*.*";
   "NorthAmerica.Veloria.Zyros.Moonshadow.*.*";
   "NorthAmerica.Zovaris.Korvax.Stormcrest.*.*";
   "NorthAmerica.Valentia.Rivenor.Sunblade.*.*";
   "NorthAmerica.Zeltria.Orex.Shadowridge.*.*";
   "NorthAmerica.Voronia.Xelthra.Thunderpeak.*.*";
   "SouthAmerica.Viridia.Malothia.JadeHollow.*.*";
   "SouthAmerica.Malandria.Aurelia.PhoenixBay.*.*";
   "SouthAmerica.Valcoria.Lorvia.EmeraldIsle.*.*";
   "SouthAmerica.Aronya.Valeria.MysticFalls.*.*";
   "SouthAmerica.Celestia.Palvoria.EbonyVale.*.*";
   "SouthAmerica.Zorvia.Sarath.TalonCliffs.*.*";
   "SouthAmerica.Celentis.Volara.Dreamshade.*.*";
   "SouthAmerica.Valthera.Tarvora.CrimsonCove.*.*";
   "SouthAmerica.Xanthia.Theros.MysticGrove.*.*";
   "SouthAmerica.Selveria.Pyros.Riverwind.*.*";
   "SouthAmerica.Volthea.Arventis.ShadowGlen.*.*";
   "SouthAmerica.Eldoria.Lithara.Thunderstone.*.*";
   "SouthAmerica.Korvax.Talora.Sunspire.*.*";
   "SouthAmerica.Vyxoria.Zandros.Shadowvale.*.*";
   "SouthAmerica.Pyronia.Volcath.SilentHill.*.*";
   "SouthAmerica.Zylandria.Orvath.CrimsonBay.*.*";
   "SouthAmerica.Valtheris.Vorlon.Suncrest.*.*";
   "SouthAmerica.Xylandria.Antaris.EchoValley.*.*";
   "SouthAmerica.Novanta.Pallaxa.LunarGrove.*.*";
   "SouthAmerica.Quilara.Talvos.StormBluff.*.*";
   "SouthAmerica.Vandora.Valzor.SilverStream.*.*";
   "SouthAmerica.Xyvronia.Lithara.MysticCove.*.*";
   "SouthAmerica.Selvoria.Vorvath.ThunderGlen.*.*";
   "SouthAmerica.Valencia.Orvalon.Rivercrest.*.*";
   "SouthAmerica.Xylothia.Zentar.GlintRidge.*.*";
   "SouthAmerica.Voloria.Sylvara.TwilightPeak.*.*";
   "Europe.Maldera.Quinthra.Shadowpeak.*.*";
   "Europe.Talvoria.Aurex.LunarHollow.*.*";
   "Europe.Valtoria.Xelara.SunfallGlen.*.*";
   "Europe.Xylandria.Korinox.StormCrest.*.*";
   "Europe.Ceridia.Vandor.SilverGrove.*.*";
   "Europe.Kytheria.Zorthal.Ravenridge.*.*";
   "Europe.Zypheria.Malvora.Sunwood.*.*";
   "Europe.Volaxia.Talendria.Moonstone.*.*";
   "Europe.Karvoria.Vorlon.EchoMesa.*.*";
   "Europe.Thalandia.Zaltor.Sunridge.*.*";
   "Europe.Vantoria.Syldor.CrimsonHollow.*.*";
   "Europe.Xantheas.Oltar.Stormwind.*.*";
   "Europe.Quinthia.Aetheris.ThunderCliff.*.*";
   "Europe.Rovinthar.Zyros.CrimsonGlade.*.*";
   "Europe.Selveris.Vorath.MoonBluff.*.*";
   "Europe.Talvora.Zyloth.Glintwood.*.*";
   "Europe.Valtheris.Vorath.MysticHaven.*.*";
   "Europe.Zelvoris.Altira.Silverthorn.*.*";
   "Europe.Valthera.Kylos.Sunspire.*.*";
   "Europe.Xyphera.Voltara.ShadowMire.*.*";
   "Europe.Celathra.Tharvos.MysticCove.*.*";
   "Europe.Theronis.Orvax.CrimsonPeak.*.*";
   "Europe.Selvorn.Korvath.ThunderBay.*.*";
   "Europe.Zantheria.Voloria.SilverMesa.*.*";
   "Europe.Xyrelia.Talvora.RavenGlen.*.*";
   "Europe.Valoria.Zelthra.Moonrise.*.*";
   "Europe.Quinthara.Olthera.SilverLake.*.*";
   "Europe.Zoltara.Ryvon.ThunderHill.*.*";
   "Europe.Selvoris.Vorland.Suncrest.*.*";
   "Europe.Theronix.Xarvath.CrimsonRidge.*.*";
   "Europe.Korvaris.Valthros.StormBay.*.*";
   "Europe.Valdoria.Quinthos.EchoGrove.*.*";
   "Africa.Voltheon.Zoltris.Suncrest.*.*";
   "Africa.Thalvaria.Ravinthar.LunarHollow.*.*";
   "Africa.Valoria.Xalvath.ThunderPlains.*.*";
   "Africa.Zorvath.Selenor.Silverpeak.*.*";
   "Africa.Vandora.Kylandar.MysticRidge.*.*";
   "Africa.Quinthar.Valthoria.Stormshade.*.*";
   "Africa.Xylothar.Vorath.SunValley.*.*";
   "Africa.Zelandia.Theronis.CrimsonCove.*.*";
   "Africa.Vantheon.Selvos.Moonspire.*.*";
   "Africa.Therondar.Volaria.ShadowGrove.*.*";
   "Africa.Valdoria.Altira.LunarBay.*.*";
   "Africa.Selvoria.Xylandor.Glintwood.*.*";
   "Africa.Xyronia.Valtheris.Sunridge.*.*";
   "Africa.Quinthar.Voltara.ThunderGrove.*.*";
   "Africa.Valterra.Olthoria.CrimsonBluff.*.*";
   "Africa.Xalvoria.Zorath.MysticPeak.*.*";
   "Africa.Thalvaris.Zanthon.Sunstone.*.*";
   "Africa.Rovinthar.Vantoria.EchoRidge.*.*";
   "Africa.Selthara.Zorvath.SilverCrest.*.*";
   "Africa.Xylandra.Valdoria.MoonRidge.*.*";
   "Africa.Valtheris.Zolvaris.ShadowValley.*.*";
   "Africa.Vorlonia.Thalvaris.Thunderstone.*.*";
   "Africa.Xalvaris.Zeltria.Sunbluff.*.*";
   "Africa.Vandaria.Rovinthar.GlintPeak.*.*";
   "Africa.Thalvath.Xoltris.SilverVale.*.*";
   "Africa.Valdaria.Sylvoris.MoonCrest.*.*";
   "Africa.Seltheris.Voltrax.CrimsonHill.*.*";
   "Africa.Valtheris.Rovinthor.SunGrove.*.*";
   "Africa.Xarvath.Zorvinth.StormValley.*.*";
   "Africa.Kylandor.Valthros.Glintstone.*.*";
   "Africa.Sylvoria.Zelvath.MoonGlen.*.*";
   "Asia.Valdoria.Tharvos.SunGrove.*.*";
   "Asia.Xelthar.Vorlon.Moonshade.*.*";
   "Asia.Zantheria.Vorath.StormVale.*.*";
   "Asia.Valtheris.Selvath.ThunderCrest.*.*";
   "Asia.Tharvath.Xoltria.Sunbluff.*.*";
   "Asia.Zolvaris.Valthros.ShadowGrove.*.*";
   "Asia.Xarvath.Selvorn.Moonstone.*.*";
   "Asia.Voltaris.Zeltria.GlintRidge.*.*";
   "Asia.Seltharis.Valoria.Sunwood.*.*";
   "Asia.Valtoris.Thalvath.MysticGrove.*.*";
   "Asia.Zarvath.Xelvos.CrimsonPeak.*.*";
   "Asia.Volaris.Tharvon.Shadowvale.*.*";
   "Asia.Xelvoris.Valtheria.SilverGlen.*.*";
   "Asia.Valdoria.Zorvath.LunarHollow.*.*";
   "Asia.Xylandar.Valvoria.Sunstone.*.*";
   "Asia.Theronis.Voltrax.Glintwood.*.*";
   "Asia.Zeltria.Valtoria.StormGlen.*.*";
   "Asia.Vanthara.Tharvath.ThunderBay.*.*";
   "Asia.Selthra.Zoltrax.Moonridge.*.*";
   "Asia.Valtheria.Zarvath.Sunbluff.*.*";
   "Asia.Xoltria.Volaria.SilverBay.*.*";
   "Asia.Theronis.Valdaria.Shadowstone.*.*";
   "Asia.Valvoria.Zyloth.SunVale.*.*";
   "Asia.Xantheria.Thalvath.Moonstone.*.*";
   "Asia.Zarvath.Valthros.GlintGlen.*.*";
   "Asia.Vorathia.Xelthros.Suncrest.*.*";
   "Asia.Selvoria.Zolvaris.CrimsonHill.*.*";
   "Asia.Valdoris.Theronis.MoonGrove.*.*"].

Definition methods : list string :=
  ["GET"; "POST"].

Definition requests : list string :=
  ["http://aaron.stratum8.net/FFC/login.html";
   "http://aaron.stratum8.net/FFC/login.php?login_name=abc&passwd=123456789234&drinking_pref=on&text_area=&loginButton=ClickToLogin&as_sfid=AAAAAAWIahZuYoIFbjBhYMP05mJLTwEfIY0a7AKGMg3jIBaKmwtK4t7M7lNxOgj7Gmd3SZc8KUj6CR6a7W5kIWDRHN8PtK1Zc-txHkHNx1WknuG9DzTuM7t1THhluevXu9I4kp8%3D&as_fid=feeec8758b41740eedeeb6b35b85dfd3d5def30c";
   "http://aaron.stratum8.net/FFC/wwwboard/passwd.txt";
   "http://aaron.stratum8.net/FFC/CreditCardMind.html";
   "http://vpx247.example.net/FFC/CreditCardMind.html";
   "http://vpx247.example.net/FFC/login_post.html?abc\=def";
   "http://vpx247.example.net/FFC/wwwboard/passwd.txt"].

Definition messages : list string :=
  ["Signature violation rule ID 807: web-cgi /wwwboard/passwd.txt access";
   "Disallow Illegal URL.";
   "Transformed (xout) potential credit card numbers seen in server response";
   "Maximum number of potential credit card numbers seen";
   "Field consistency check failed for field passwd"].

Definition profiles : list string :=
  ["pr_ffc"].

Definition severityLabels : list string :=
  ["INFO"; "ALERT"].

Definition violationCategory : list string :=
  [""; "web-cgi"; "sql-injection"; "phishing"].

Definition actions : list string :=
  ["blocked"; "not blocked"; "transformed"].
Definition msgTemplates : list string := [tmpl].

Record CEF : Type := mkCEF {
  Timestamp : Time;
  TimeLayout : string;
  Facility : string;
  Priority : string;
  Addr : IP;
  CEFVersion : Z;
  Vendor : string;
  Product : string;
  Version : string;
  Module_ : string;
  Violation : string;
  Severity : Z;
  SrcAddr : IP;
  Geo : string;
  SrcPort : Z;
  Method : string;
  Request : string;
  Message : string;
  EventID : Z;
  TxID : Z;
  Profile : string;
  PPEID : string;
  SessID : string;
  SeverityLabel : string;
  Year : Z;
  ViolationCategory : string;
  Action : string;
  templates : list template.Template
}.

(** [&CEF{}]: every field at its zero value. *)
Definition zero : CEF :=
  mkCEF zeroTime "" "" "" IPnil 0 "" "" "" "" "" 0 IPnil "" 0 "" "" "" 0 0
        "" "" "" "" 0 "" "" [].

(** [c.templates = ts] *)
Definition setTemplates (c : CEF) (ts : list template.Template) : CEF :=
  mkCEF (Timestamp c) (TimeLayout c) (Facility c) (Priority c) (Addr c)
    (CEFVersion c) (Vendor c) (Product c) (Version c) (Module_ c)
    (Violation c) (Severity c) (SrcAddr c) (Geo c) (SrcPort c) (Method c)
    (Request c) (Message c) (EventID c) (TxID c) (Profile c) (PPEID c)
    (SessID c) (SeverityLabel c) (Year c) (ViolationCategory c) (Action c)
    ts.

(** The record as the data value of a template: its exported fields by
    name ([templates] is not exported). *)
Definition fields (c : CEF) (fname : string) : option template.value :=
  let named := String.eqb fname in
  if named "Timestamp" then Some (template.VTime (Timestamp c))
  else if named "TimeLayout" then Some (template.VString (TimeLayout c))
  else if named "Facility" then Some (template.VString (Facility c))
  else if named "Priority" then Some (template.VString (Priority c))
  else if named "Addr" then Some (template.VIP (Addr c))
  else if named "CEFVersion" then Some (template.VInt (CEFVersion c))
  else if named "Vendor" then Some (template.VString (Vendor c))
  else if named "Product" then Some (template.VString (Product c))
  else if named "Version" then Some (template.VString (Version c))
  else if named "Module" then Some (template.VString (Module_ c))
  else if named "Violation" then Some (template.VString (Violation c))
  else if named "Severity" then Some (template.VInt (Severity c))
  else if named "SrcAddr" then Some (template.VIP (SrcAddr c))
  else if named "Geo" then Some (template.VString (Geo c))
  else if named "SrcPort" then Some (template.VInt (SrcPort c))
  else if named "Method" then Some (template.VString (Method c))
  else if named "Request" then Some (template.VString (Request c))
  else if named "Message" then Some (template.VString (Message c))
  else if named "EventID" then Some (template.VInt (EventID c))
  else if named "TxID" then Some (template.VInt (TxID c))
  else if named "Profile" then Some (template.VString (Profile c))
  else if named "PPEID" then Some (template.VString (PPEID c))
  else if named "SessID" then Some (template.VString (SessID c))
  else if named "SeverityLabel" then Some (template.VString (SeverityLabel c))
  else if named "Year" then Some (template.VInt (Year c))
  else if named "ViolationCategory"
       then Some (template.VString (ViolationCategory c))
  else if named "Action" then Some (template.VString (Action c))
  else None.

Definition data (c : CEF) : template.value := template.VStruct (fields c).

Definition randString (s : list string) : M string :=
  do i <- rand.Intn (len s);
  index s i.

Definition randomize (c : CEF) : M CEF :=
  do timestamp <- time.Now;
  do timeLayout <- randString timeLayouts;
  do facility <- randString facilities;
  do priority <- randString priorities;
  do addr <- random.IPv4;
  do cefVersion <- rand.Intn 2;
  do vendor <- randString vendors;
  do product <- randString products;
  do version <- randString versions;
  do module <- randString modules;
  do violation <- randString violations;
  do sev <- rand.Intn 10;
  let severity := add64 sev 1 in
  do srcAddr <- random.IPv4;
  do geo <- randString locations;
  do srcPort <- random.Port;
  do method <- randString methods;
  do request <- randString requests;
  do message <- randString messages;
  do eventID <- rand.Intn 1000;
  do txID <- rand.Intn 100000;
  do profile <- randString profiles;
  do ppe <- rand.Intn 9;
  let ppeid := "PPE" +:+ itoa (add64 ppe 1) in
  do sessID <- rand.Read 16;
  do severityLabel <- randString severityLabels;
  let year := time.Year timestamp in
  do violationCat <- randString violationCategory;
  do action <- randString actions;
  ret {| Timestamp := timestamp;
         TimeLayout := timeLayout;
         Facility := facility;
         Priority := priority;
         Addr := addr;
         CEFVersion := cefVersion;
         Vendor := vendor;
         Product := product;
         Version := version;
         Module_ := module;
         Violation := violation;
         Severity := severity;
         SrcAddr := srcAddr;
         Geo := geo;
         SrcPort := srcPort;
         Method := method;
         Request := request;
         Message := message;
         EventID := eventID;
         TxID := txID;
         Profile := profile;
         PPEID := ppeid;
         SessID := EncodeToString sessID;
         SeverityLabel := severityLabel;
         Year := year;
         ViolationCategory := violationCat;
         Action := action;
         templates := templates c |}.

(** The loop of [New]: each source is parsed under the name of its index
    and appended to [c.templates]; the first failure ends construction.
    The function map of package [generator] plays no part: no declared
    template calls a function. *)
Fixpoint compileFrom (i : Z) (sources : list string) (c : CEF)
  : result error CEF :=
  match sources with
  | [] => Ok c
  | v :: rest =>
      match template.Parse (itoa i) v with
      | Err e => Err (TemplateError e)
      | Ok t => compileFrom (i + 1) rest (setTemplates c (templates c ++ [t]))
      end
  end.

(** [New], with the package variable [msgTemplates] as a parameter. *)
Definition NewFrom (sources : list string) (cfg : ucfg.Config)
  : M (result error CEF) :=
  match ucfg.Unpack cfg with
  | Some msg => ret (Err (ConfigError msg))
  | None =>
      do c <- randomize zero;
      ret (compileFrom 0 sources c)
  end.

(** [New] returns a new Citrix CEF log line generator. *)
Definition New (cfg : ucfg.Config) : M (result error CEF) :=
  NewFrom msgTemplates cfg.

(** [Next] produces the next CEF log entry: the bytes or the error, and
    the generator after the call. *)
Definition Next (c : CEF) : M (result error string * CEF) :=
  do i <- rand.Intn (len (templates c));
  do t <- index (templates c) i;
  match template.Execute t (data c) with
  | Err e => ret (Err (RenderError e), c)
  | Ok buf =>
      do c' <- randomize c;
      ret (Ok buf, c')
  end.

End cef.

(** ** Generator registry *)

Module generator.

Section Registry.

(** The type of constructors ([Factory]). *)
Context {Factory : Type}.

(** Modelled from the spec: [Register] of package [generator].  The
    registry is a process-wide mapping from format identifier to
    constructor; [Register] records or overwrites the mapping, and nothing
    is ever removed. *)
Definition Register (id : string) (ctor : Factory)
  (registry : gmap string Factory) : gmap string Factory :=
  <[id := ctor]> registry.

(** Modelled from the spec: [Lookup] of package [generator] returns the
    constructor registered under the identifier, or that none was found. *)
Definition Lookup (id : string) (registry : gmap string Factory)
  : option Factory :=
  registry !! id.

(** The registry after a sequence of registrations, first to last,
    starting from the empty registry of process start. *)
Definition registered (regs : list (string * Factory)) : gmap string Factory :=
  foldl (fun registry r => Register r.1 r.2 registry) ∅ regs.

End Registry.

End generator.

(** * Properties *)

(** ** Vocabulary of the statements *)

(** Concatenation of the pieces of a line, in order. *)
Definition cat (pieces : list string) : string :=
  foldr String.append EmptyString pieces.

(** The window of [Randomtime]: twenty minutes, in nanoseconds. *)
Definition window : Z := 1200000000000.

(** [returns m w Q]: from environment [w] the call [m] returns (it does not
    panic), with a value and an environment that satisfy [Q]. *)
Definition returns {A} (m : M A) (w : World) (Q : A -> World -> Prop) : Prop :=
  match m w with
  | Done a w' => Q a w'
  | Panic _ => False
  end.

(** The text [hh:mm:ss]. *)
Definition clockText (h m s : Z) : string :=
  cat [time.appendInt h 2; ":"; time.appendInt m 2; ":"; time.appendInt s 2].

(** A time of day written as hour:minute:second. *)
Definition clock_string (s : string) : Prop :=
  exists h m sec,
    0 <= h < 24 /\ 0 <= m < 60 /\ 0 <= sec < 60 /\ s = clockText h m sec.

(** An address made of four bytes. *)
Definition ipv4_address (ip : IP) : Prop :=
  exists a b c d,
    ip = IPv4addr a b c d /\
    0 <= a <= 255 /\ 0 <= b <= 255 /\ 0 <= c <= 255 /\ 0 <= d <= 255.

(** The environment after one reading of the clock. *)
Definition ticked (w : World) : World :=
  mkWorld (seq w) (pos w) (prng w) (clock w) (S (tick w)) (zone w).

(** The declared domains of the fields of a firewall record. *)
Record fw_domain (f : firewall.Firewall) : Prop := mk_fw_domain {
  fw_Timestamp : clock_string (firewall.Timestamp f);
  fw_DevName : firewall.DevName f ∈ firewall.devices;
  fw_DevId : firewall.DevId f ∈ firewall.devid;
  fw_LogId : 0 <= firewall.LogId f <= 9;
  fw_Timezone : firewall.Timezone f = "-0500";
  fw_Vd : firewall.Vd f = "root";
  fw_User : firewall.User f ∈ firewall.users;
  fw_Server : firewall.Server f ∈ firewall.servers;
  fw_SrcIp : ipv4_address (firewall.SrcIp f);
  fw_SrcPort : 0 <= firewall.SrcPort f <= 65535;
  fw_DstIp : ipv4_address (firewall.DstIp f);
  fw_DstPort : 0 <= firewall.DstPort f <= 65535;
  fw_PolicyId : 0 <= firewall.PolicyId f <= 255;
  fw_SessionId : 0 <= firewall.SessionId f <= 65535;
  fw_Interface1 : firewall.Interface1 f ∈ firewall.interfaces;
  fw_Interface2 : firewall.Interface2 f ∈ firewall.interfaces;
  fw_InterfaceRole1 : firewall.InterfaceRole1 f ∈ firewall.roles;
  fw_InterfaceRole2 : firewall.InterfaceRole2 f ∈ firewall.roles;
  fw_Protocol : firewall.Protocol f ∈ firewall.protocols;
  fw_QueryName : firewall.QueryName f ∈ firewall.queries;
  fw_QueryType : firewall.QueryType f ∈ firewall.queryTypes;
  fw_XId : 0 <= firewall.XId f <= 255;
  fw_Level : firewall.Level f ∈ firewall.levels;
  fw_TrafficAction : firewall.TrafficAction f ∈ firewall.trafficActions;
  fw_SentPackets : 0 <= firewall.SentPackets f <= 65535;
  fw_SentBytes : firewall.SentBytes f = firewall.SentPackets f * 1500;
  fw_Duration : 0 <= firewall.Duration f <= 1023
}.

(** The declared domains of the fields of a CEF record. *)
Record cef_domain (c : cef.CEF) : Prop := mk_cef_domain {
  cef_TimeLayout : cef.TimeLayout c ∈ cef.timeLayouts;
  cef_Facility : cef.Facility c ∈ cef.facilities;
  cef_Priority : cef.Priority c ∈ cef.priorities;
  cef_Addr : ipv4_address (cef.Addr c);
  cef_CEFVersion : 0 <= cef.CEFVersion c <= 1;
  cef_Vendor : cef.Vendor c ∈ cef.vendors;
  cef_Product : cef.Product c ∈ cef.products;
  cef_Version : cef.Version c ∈ cef.versions;
  cef_Module : cef.Module_ c ∈ cef.modules;
  cef_Violation : cef.Violation c ∈ cef.violations;
  cef_Severity : 1 <= cef.Severity c <= 10;
  cef_SrcAddr : ipv4_address (cef.SrcAddr c);
  cef_Geo : cef.Geo c ∈ cef.locations;
  cef_SrcPort : 0 <= cef.SrcPort c <= 65535;
  cef_Method : cef.Method c ∈ cef.methods;
  cef_Request : cef.Request c ∈ cef.requests;
  cef_Message : cef.Message c ∈ cef.messages;
  cef_EventID : 0 <= cef.EventID c <= 999;
  cef_TxID : 0 <= cef.TxID c <= 99999;
  cef_Profile : cef.Profile c ∈ cef.profiles;
  cef_PPEID : exists n, 1 <= n <= 9 /\ cef.PPEID c = "PPE" +:+ itoa n;
  cef_SessID : exists bs, length bs = 16%nat /\ cef.SessID c = EncodeToString bs;
  cef_SeverityLabel : cef.SeverityLabel c ∈ cef.severityLabels;
  cef_Year : cef.Year c = time.Year (cef.Timestamp c);
  cef_ViolationCategory : cef.ViolationCategory c ∈ cef.violationCategory;
  cef_Action : cef.Action c ∈ cef.actions
}.

(** What [Randomtime] reads and leaves behind, from environment [w]: the
    first reading of the clock is the seed, the second is the time of the
    call; the source is left one draw into the stream of the seed. *)
Definition seedReading (w : World) : Z :=
  time.UnixNano (mkTime (clock w (tick w)) (Local (zone w))).

Definition callTime (w : World) : Z := clock w (S (tick w)).

Definition drawnOffset (w : World) : Z := prng w (seedReading w) O mod window.

Definition reseeded (w : World) : World :=
  mkWorld (prng w (seedReading w)) 1 (prng w) (clock w) (S (S (tick w))) (zone w).

(** The instant [Randomtime] formats. *)
Definition randomTimestamp (w : World) : Time :=
  mkTime (callTime w - window + drawnOffset w) (Local (zone w)).

(** The text a [with] block writes for a string: nothing when it is empty. *)
Definition optional (label v : string) : string :=
  match v with
  | EmptyString => EmptyString
  | _ => cat [label; v; " "]
  end.

(** The template a source compiles to (the empty template if it does
    not compile). *)
Definition parsed (name text : string) : template.Template :=
  match template.Parse name text with
  | Ok t => t
  | Err _ => template.mkTemplate name []
  end.

(** The sources of a format compiled in order, each under the name of its
    index, up to the first that does not compile. *)
Fixpoint parseAll (i : Z) (sources : list string)
  : result template.ParseError (list template.Template) :=
  match sources with
  | [] => Ok []
  | v :: rest =>
      try t <- template.Parse (itoa i) v;
      try ts <- parseAll (i + 1) rest;
      Ok (t :: ts)
  end.

(** The lines of the five templates, written out field by field. *)
Definition eventUserLine (f : firewall.Firewall) : string :=
  cat
    ["date="; time.Format (time.In_UTC (firewall.Date f)) "2006-01-02";
     " time="; firewall.Timestamp f; (" devname=" +:+ dquote);
     firewall.DevName f; (dquote +:+ " devid=" +:+ dquote); firewall.DevId f;
     (dquote +:+ " logid=" +:+ dquote); itoa (firewall.LogId f);
     (dquote +:+ " type=" +:+ dquote +:+ "event" +:+ dquote +:+
      " subtype=" +:+ dquote +:+ "user" +:+ dquote +:+ " level=" +:+ dquote);
     firewall.Level f; (dquote +:+ " vd=" +:+ dquote); firewall.Vd f;
     (dquote +:+ " eventtime="); itoa (time.Unix (firewall.Date f));
     (" tz=" +:+ dquote); firewall.Timezone f;
     (dquote +:+ " logdesc=" +:+ dquote +:+
      "FSSO logon authentication status" +:+ dquote +:+ " srcip=");
     net.String_ (firewall.SrcIp f); (" user=" +:+ dquote); firewall.User f;
     (dquote +:+ " server=" +:+ dquote); firewall.Server f;
     (dquote +:+ " action=" +:+ dquote +:+ "FSSO-logon" +:+ dquote +:+
      " msg=" +:+ dquote +:+ "FSSO-logon event from FSSO_");
     firewall.Server f; ": user "; firewall.User f; " logged on ";
     net.String_ (firewall.SrcIp f); dquote].

Definition eventSystemLine (f : firewall.Firewall) : string :=
  cat
    ["date="; time.Format (time.In_UTC (firewall.Date f)) "2006-01-02";
     " time="; firewall.Timestamp f; (" devname=" +:+ dquote);
     firewall.DevName f; (dquote +:+ " devid=" +:+ dquote); firewall.DevId f;
     (dquote +:+ " logid=" +:+ dquote); itoa (firewall.LogId f);
     (dquote +:+ " type=" +:+ dquote +:+ "event" +:+ dquote +:+
      " subtype=" +:+ dquote +:+ "system" +:+ dquote +:+ " level=" +:+
      dquote);
     firewall.Level f; (dquote +:+ " vd=" +:+ dquote); firewall.Vd f;
     (dquote +:+ " eventtime="); itoa (time.Unix (firewall.Date f));
     (" tz=" +:+ dquote); firewall.Timezone f;
     (dquote +:+ " logdesc=" +:+ dquote +:+
      "FortiSandbox AV database updated" +:+ dquote +:+ " version=" +:+
      dquote +:+ "1.522479" +:+ dquote +:+ " msg=" +:+ dquote +:+
      "FortiSandbox AV database updated" +:+ dquote)].

Definition utmDnsLine (f : firewall.Firewall) : string :=
  cat
    ["date="; time.Format (time.In_UTC (firewall.Date f)) "2006-01-02";
     " time="; firewall.Timestamp f; (" devname=" +:+ dquote);
     firewall.DevName f; (dquote +:+ " devid=" +:+ dquote); firewall.DevId f;
     (dquote +:+ " logid=" +:+ dquote); itoa (firewall.LogId f);
     (dquote +:+ " type=" +:+ dquote +:+ "utm" +:+ dquote +:+ " subtype=" +:+
      dquote +:+ "dns" +:+ dquote +:+ " eventtype=" +:+ dquote +:+
      "dns-query" +:+ dquote +:+ " level=" +:+ dquote);
     firewall.Level f; (dquote +:+ " vd=" +:+ dquote); firewall.Vd f;
     (dquote +:+ " eventtime="); itoa (time.Unix (firewall.Date f));
     (" tz=" +:+ dquote); firewall.Timezone f; (dquote +:+ " policyid=");
     itoa (firewall.PolicyId f); " sessionid="; itoa (firewall.SessionId f);
     " srcip="; net.String_ (firewall.SrcIp f); " srcport=";
     itoa (firewall.SrcPort f); (" srcintf=" +:+ dquote);
     firewall.Interface1 f; (dquote +:+ " srcintfrole=" +:+ dquote);
     firewall.InterfaceRole1 f; (dquote +:+ " dstip=");
     net.String_ (firewall.DstIp f); (" dstport=53 dstintf=" +:+ dquote);
     firewall.Interface2 f; (dquote +:+ " dstintfrole=" +:+ dquote);
     firewall.InterfaceRole2 f; (dquote +:+ " proto=");
     itoa (firewall.Protocol f); (" profile=" +:+ dquote); firewall.Server f;
     (dquote +:+ " xid="); itoa (firewall.XId f); (" qname=" +:+ dquote);
     firewall.QueryName f; (dquote +:+ " qtype=" +:+ dquote);
     firewall.QueryType f;
     (dquote +:+ " qtypeval=1 qclass=" +:+ dquote +:+ "IN" +:+ dquote)].

Definition trafficForwardLine (f : firewall.Firewall) : string :=
  cat
    ["date="; time.Format (time.In_UTC (firewall.Date f)) "2006-01-02";
     " time="; firewall.Timestamp f; (" devname=" +:+ dquote);
     firewall.DevName f; (dquote +:+ " devid=" +:+ dquote); firewall.DevId f;
     (dquote +:+ " logid=" +:+ dquote); itoa (firewall.LogId f);
     (dquote +:+ " type=" +:+ dquote +:+ "traffic" +:+ dquote +:+
      " subtype=" +:+ dquote +:+ "forward" +:+ dquote +:+ " level=" +:+
      dquote);
     firewall.Level f; (dquote +:+ " vd=" +:+ dquote); firewall.Vd f;
     (dquote +:+ " eventtime="); itoa (time.Unix (firewall.Date f));
     " srcip="; net.String_ (firewall.SrcIp f); " srcport=";
     itoa (firewall.SrcPort f); (" srcintf=" +:+ dquote);
     firewall.Interface1 f; (dquote +:+ " srcintfrole=" +:+ dquote);
     firewall.InterfaceRole1 f; (dquote +:+ " dstip=");
     net.String_ (firewall.DstIp f); " dstport="; itoa (firewall.DstPort f);
     (" dstintf=" +:+ dquote); firewall.Interface2 f;
     (dquote +:+ " dstintfrole=" +:+ dquote); firewall.InterfaceRole2 f;
     (dquote +:+ " sessionid="); itoa (firewall.SessionId f); " proto=";
     itoa (firewall.Protocol f); (" action=" +:+ dquote);
     firewall.TrafficAction f; (dquote +:+ " policyid=");
     itoa (firewall.PolicyId f);
     (" policytype=" +:+ dquote +:+ "policy" +:+ dquote +:+ " service=" +:+
      dquote +:+ "SNMP" +:+ dquote +:+ " dstcountry=" +:+ dquote +:+
      "Reserved" +:+ dquote +:+ " srccountry=" +:+ dquote +:+ "Reserved" +:+
      dquote +:+ " trandisp=" +:+ dquote +:+ "noop" +:+ dquote +:+
      " duration=");
     itoa (firewall.Duration f); " sentbyte="; itoa (firewall.SentBytes f);
     " rcvdbyte="; itoa (firewall.SentBytes f); " sentpkt=";
     itoa (firewall.SentPackets f);
     (" appcat=" +:+ dquote +:+ "unscanned" +:+ dquote +:+
      " crscore=30 craction=131072 crlevel=" +:+ dquote +:+ "high" +:+
      dquote)].

Definition cefLine (c : cef.CEF) : string :=
  cat
    [time.Format (cef.Timestamp c) (cef.TimeLayout c); " <"; cef.Facility c;
     "."; cef.Priority c; "> "; net.String_ (cef.Addr c); " CEF:";
     itoa (cef.CEFVersion c); "|"; cef.Vendor c; "|"; cef.Product c; "|";
     cef.Version c; "|"; cef.Module_ c; "|"; cef.Violation c; "|";
     itoa (cef.Severity c); "|src="; net.String_ (cef.SrcAddr c); " ";
     optional "geolocation=" (cef.Geo c); "spt="; itoa (cef.SrcPort c);
     " method="; cef.Method c; " request="; cef.Request c; " msg=";
     cef.Message c; " cn1="; itoa (cef.EventID c); " cn2=";
     itoa (cef.TxID c); " cs1="; cef.Profile c; " cs2="; cef.PPEID c;
     " cs3="; cef.SessID c; " cs4="; cef.SeverityLabel c; " cs5=";
     itoa (cef.Year c); " "; optional "cs6=" (cef.ViolationCategory c);
     "act="; cef.Action c].

(** A format as the framework sees it: its generator state, its template
    sources, and the operations behind [New] and [Next]. *)
Record Format : Type := mkFormat {
  Gen : Type;
  sourcesOf : list string;
  zeroOf : Gen;
  randomizeOf : Gen -> M Gen;
  templatesOf : Gen -> list template.Template;
  setTemplatesOf : Gen -> list template.Template -> Gen;
  dataOf : Gen -> template.value;
  NewFromOf : list string -> ucfg.Config -> M (result error Gen);
  NextOf : Gen -> M (result error string * Gen);
  domainOf : Gen -> Prop
}.

Definition fortinet : Format :=
  mkFormat firewall.Firewall firewall.msgTemplates firewall.zero
    firewall.randomize firewall.Templates firewall.setTemplates firewall.data
    firewall.NewFrom firewall.Next fw_domain.

Definition citrix : Format :=
  mkFormat cef.CEF cef.msgTemplates cef.zero cef.randomize cef.templates
    cef.setTemplates cef.data cef.NewFrom cef.Next cef_domain.

(** [New] of a format: [NewFrom] on its declared sources. *)
Definition NewOf (F : Format) : ucfg.Config -> M (result error (Gen F)) :=
  NewFromOf F (sourcesOf F).

(** The generator instances a program obtains: from a successful [New], and
    then across calls of [Next] in whatever environment they run. *)
Inductive constructed (F : Format) : Gen F -> Prop :=
| constructed_New (cfg : ucfg.Config) (w w' : World) (g : Gen F) :
    NewOf F cfg w = Done (Ok g) w' -> constructed F g
| constructed_Next (g g' : Gen F) (w w' : World) (r : result error string) :
    constructed F g -> NextOf F g w = Done (r, g') w' -> constructed F g'.

(** The templates a constructed generator holds. *)
Definition compiledOf (F : Format) : list template.Template :=
  match parseAll 0 (sourcesOf F) with
  | Ok ts => ts
  | Err _ => []
  end.

(** The index [Next] draws from environment [w] among [n] templates. *)
Definition selected (n : Z) (w : World) : nat := Z.to_nat (raw w mod n).

(** The lines a generator can produce from its current record, one per
    template, in the order of the templates. *)
Definition fw_lines (f : firewall.Firewall) : list string :=
  [eventUserLine f; eventSystemLine f; utmDnsLine f; trafficForwardLine f].

Definition cef_lines (c : cef.CEF) : list string := [cefLine c].

(** The documented line of the event/user example, for a record dated
    [date]. *)
Definition fixtureLine (date : Time) : string :=
  cat ["date="; time.Format (time.In_UTC date) "2006-01-02";
       " time=03:04:05 devname=" +:+ q "testswitch3" +:+
       " devid=" +:+ q "testrouter" +:+ " logid=" +:+ q "123456789" +:+
       " type=" +:+ q "event" +:+ " subtype=" +:+ q "user" +:+
       " level=" +:+ q "error" +:+ " vd=" +:+ q "root" +:+ " eventtime=";
       itoa (time.Unix date);
       " tz=" +:+ q "-0500" +:+
       " logdesc=" +:+ q "FSSO logon authentication status" +:+
       " srcip=142.155.32.170 user=" +:+ q "user07" +:+
       " server=" +:+ q "srv7" +:+ " action=" +:+ q "FSSO-logon" +:+
       " msg=" +:+
       q "FSSO-logon event from FSSO_srv7: user user07 logged on 142.155.32.170"].

(** ** Concrete inputs *)

(** An environment: a stream of draws, a generator algorithm, a clock that
    starts on 2026-10-31 00:00:00 UTC and a zone five hours west. *)
Definition sampleWorld : World :=
  mkWorld (fun n => Z.of_nat n * 7919 + 13) 0
          (fun seed n => Z.of_nat n * 104729 + seed)
          (fun n => Z.of_nat n + 1793404800 * Second) 0
          (fun _ => -18000).

(** The same environment with a source whose every draw is [v]. *)
Definition constantWorld (v : Z) : World :=
  mkWorld (fun _ => v) 0 (prng sampleWorld) (clock sampleWorld) 0
          (zone sampleWorld).

Definition sampleConfig : ucfg.Config := ucfg.mkConfig None.

Definition brokenConfig : ucfg.Config := ucfg.mkConfig (Some "unknown option").

(** The record of the documented example, dated 1970-01-02 03:04:05 UTC. *)
Definition exampleRecord : firewall.Firewall :=
  {| firewall.Timestamp := "03:04:05";
     firewall.Date := mkTime (97445 * Second) UTC;
     firewall.DevId := "testrouter";
     firewall.DevName := "testswitch3";
     firewall.Direction := "";
     firewall.DstIp := IPnil;
     firewall.DstPort := 0;
     firewall.Duration := 0;
     firewall.Interface1 := "";
     firewall.Interface2 := "";
     firewall.InterfaceRole1 := "";
     firewall.InterfaceRole2 := "";
     firewall.Level := "error";
     firewall.LogId := 123456789;
     firewall.PolicyId := 0;
     firewall.Protocol := 0;
     firewall.QueryName := "";
     firewall.QueryType := "";
     firewall.ReceivedBytes := 0;
     firewall.SentBytes := 0;
     firewall.SentPackets := 0;
     firewall.Server := "srv7";
     firewall.SessionId := 0;
     firewall.SrcIp := IPv4addr 142 155 32 170;
     firewall.SrcPort := 0;
     firewall.Templates := compiledOf fortinet;
     firewall.Timezone := "-0500";
     firewall.TrafficAction := "";
     firewall.User := "user07";
     firewall.Vd := "root";
     firewall.XId := 0 |}.

(** Two registrations, as the [init] functions of the formats make them
    (constructors stand as numbers). *)
Definition sampleRegistrations : list (string * nat) :=
  [(firewall.Name, 1%nat); (cef.Name, 2%nat)].

(** The generators [New] builds in the sample environment, and the
    environment it leaves. *)
Definition sampleFirewall : firewall.Firewall :=
  match firewall.New sampleConfig sampleWorld with
  | Done (Ok f) _ => f
  | _ => firewall.zero
  end.

Definition sampleCEF : cef.CEF :=
  match cef.New sampleConfig sampleWorld with
  | Done (Ok c) _ => c
  | _ => cef.zero
  end.

Definition afterNew {A} (o : outcome A) : World :=
  match o with
  | Done _ w => w
  | Panic _ => sampleWorld
  end.

(** Generators whose only template reads a field the record lacks. *)
Definition brokenFirewall : firewall.Firewall :=
  firewall.setTemplates firewall.zero [parsed "0" "{{.Nope}}"].

Definition brokenCEF : cef.CEF :=
  cef.setTemplates cef.zero [parsed "0" "{{.Nope}}"].

(** A firewall record a caller filled in by hand. *)
Definition inboundFirewall : firewall.Firewall :=
  {| firewall.Timestamp := "";
     firewall.Date := zeroTime;
     firewall.DevId := "";
     firewall.DevName := "";
     firewall.Direction := "inbound";
     firewall.DstIp := IPnil;
     firewall.DstPort := 0;
     firewall.Duration := 0;
     firewall.Interface1 := "";
     firewall.Interface2 := "";
     firewall.InterfaceRole1 := "";
     firewall.InterfaceRole2 := "";
     firewall.Level := "";
     firewall.LogId := 0;
     firewall.PolicyId := 0;
     firewall.Protocol := 0;
     firewall.QueryName := "";
     firewall.QueryType := "";
     firewall.ReceivedBytes := 7;
     firewall.SentBytes := 0;
     firewall.SentPackets := 0;
     firewall.Server := "";
     firewall.SessionId := 0;
     firewall.SrcIp := IPnil;
     firewall.SrcPort := 0;
     firewall.Templates := [];
     firewall.Timezone := "";
     firewall.TrafficAction := "";
     firewall.User := "";
     firewall.Vd := "";
     firewall.XId := 0 |}.

(** ** Contracts *)

(** Randomization is full: the record it leaves owes nothing to the record
    it found (the compiled templates, which are not record data, apart). *)
Definition full_randomization (F : Format) : Prop :=
  forall (g1 g2 : Gen F) (w : World),
    templatesOf F g1 = templatesOf F g2 ->
    randomizeOf F g1 w = randomizeOf F g2 w.

(** [Next] on a generator that holds the [n] compiled templates of its
    format: the draw selects one of them, each of them for some draw; the
    selected template is rendered against the record as it stands, with
    success, and the record is then randomized. *)
Definition next_contract (F : Format) (n : Z) : Prop :=
  len (compiledOf F) = n /\
  (forall k : nat, (k < Z.to_nat n)%nat -> exists w, selected n w = k) /\
  (forall (g : Gen F) (w : World),
      templatesOf F g = compiledOf F ->
      exists t line g' w',
        compiledOf F !! selected n w = Some t /\
        template.Execute t (dataOf F g) = Ok line /\
        randomizeOf F g (advance w) = Done g' w' /\
        NextOf F g w = Done (Ok line, g') w' /\
        templatesOf F g' = compiledOf F).

(** The tail of every traffic/forward line. *)
Definition trafficForwardTail : string :=
  " appcat=" +:+ q "unscanned" +:+ " crscore=30 craction=131072 crlevel=" +:+
  q "high".

(** Construction: [New] returns, with an error exactly when the
    configuration does not unpack or one of the sources does not compile;
    otherwise with the zero record randomized once and the compiled
    templates attached. *)
Definition construction_contract (F : Format) : Prop :=
  forall (sources : list string) (cfg : ucfg.Config) (w : World),
    exists r w',
      NewFromOf F sources cfg w = Done r w' /\
      ((exists e, r = Err e) <->
       (ucfg.Unpack cfg <> None \/
        exists (k : nat) v pe,
          sources !! k = Some v /\
          template.Parse (itoa (Z.of_nat k)) v = Err pe)) /\
      match r with
      | Err e =>
          (exists msg, ucfg.Unpack cfg = Some msg /\ e = ConfigError msg) \/
          (ucfg.Unpack cfg = None /\
           exists pe, parseAll 0 sources = Err pe /\ e = TemplateError pe)
      | Ok g =>
          exists g0 ts,
            randomizeOf F (zeroOf F) w = Done g0 w' /\
            parseAll 0 sources = Ok ts /\
            g = setTemplatesOf F g0 ts /\
            templatesOf F g = ts /\
            domainOf F g
      end.

(** ** Environments compared *)

(** Two environments read the same clock from where they stand, in the
    same zone and with the same generator algorithm; their random sources
    may be in any state. *)
Definition same_clock (w1 w2 : World) : Prop :=
  prng w1 = prng w2 /\ zone w1 = zone w2 /\
  forall k : nat, clock w1 (tick w1 + k)%nat = clock w2 (tick w2 + k)%nat.

(** Two such environments whose random sources are in the same state. *)
Definition same_source (w1 w2 : World) : Prop :=
  seq w1 = seq w2 /\ pos w1 = pos w2 /\ same_clock w1 w2.

(** [agrees P m]: run from two environments related by [P], the call [m]
    returns the same value and leaves the random sources in the same state,
    or panics from both. *)
Definition agrees {A} (P : World -> World -> Prop) (m : M A) : Prop :=
  forall w1 w2, P w1 w2 ->
    match m w1, m w2 with
    | Done a1 w1', Done a2 w2' => a1 = a2 /\ same_source w1' w2'
    | Panic _, Panic _ => True
    | _, _ => False
    end.

(** The 32-bit number whose bytes, lowest first, are [a], [b], [c], [d]. *)
Definition fromBytes (a b c d : Z) : Z :=
  a + 256 * b + 65536 * c + 16777216 * d.

(** An environment whose clock stands at noon UTC of 2026-10-31. *)
Definition stalledWorld : World :=
  mkWorld (seq sampleWorld) 0 (prng sampleWorld)
          (fun _ => 1793448000 * Second) 0 (zone sampleWorld).

(** What all four firewall templates begin with. *)
Definition fwHeader (f : firewall.Firewall) : string :=
  cat ["date="; time.Format (time.In_UTC (firewall.Date f)) "2006-01-02";
       " time="; firewall.Timestamp f;
       " devname=" +:+ dquote; firewall.DevName f;
       dquote +:+ " devid=" +:+ dquote; firewall.DevId f;
       dquote +:+ " logid=" +:+ dquote; itoa (firewall.LogId f);
       dquote +:+ " type=" +:+ dquote].

(** The CEF line up to the source address, and between the optional
    parts. *)
Definition cefHead (c : cef.CEF) : string :=
  cat [time.Format (cef.Timestamp c) (cef.TimeLayout c); " <"; cef.Facility c;
       "."; cef.Priority c; "> "; net.String_ (cef.Addr c); " CEF:";
       itoa (cef.CEFVersion c); "|"; cef.Vendor c; "|"; cef.Product c; "|";
       cef.Version c; "|"; cef.Module_ c; "|"; cef.Violation c; "|";
       itoa (cef.Severity c); "|src="; net.String_ (cef.SrcAddr c); " "].

Definition cefMiddle (c : cef.CEF) : string :=
  cat ["spt="; itoa (cef.SrcPort c); " method="; cef.Method c; " request=";
       cef.Request c; " msg="; cef.Message c; " cn1="; itoa (cef.EventID c);
       " cn2="; itoa (cef.TxID c); " cs1="; cef.Profile c; " cs2=";
       cef.PPEID c; " cs3="; cef.SessID c; " cs4="; cef.SeverityLabel c;
       " cs5="; itoa (cef.Year c); " "].

(** [kept w w']: [w'] has the stream, the algorithm, the clock and the zone
    of [w], and the clock has not been read in between. *)
Definition kept (w w' : World) : Prop :=
  seq w' = seq w /\ prng w' = prng w /\ clock w' = clock w /\
  zone w' = zone w /\ tick w' = tick w.
(** ** Strings without line feeds *)

Lemma nl_free_app (a b : string) :
  nl_free (a +:+ b) = nl_free a && nl_free b.
Proof.
  induction a as [|c a IH]; simpl; [reflexivity|].
  rewrite IH. apply andb_assoc.
Qed.

Lemma nl_free_cat (pieces : list string) :
  forallb nl_free pieces = true -> nl_free (cat pieces) = true.
Proof.
  induction pieces as [|p ps IH]; simpl; [reflexivity|].
  intros [Hp Hps]%andb_true_iff.
  rewrite nl_free_app, Hp. simpl. auto.
Qed.

Lemma nl_free_uint (d : Decimal.uint) :
  nl_free (NilEmpty.string_of_uint d) = true.
Proof. induction d; simpl; auto. Qed.

Lemma nl_free_itoa (z : Z) : nl_free (itoa z) = true.
Proof.
  unfold itoa.
  destruct (Z.to_int z) as [d|d]; simpl;
    destruct d; simpl; auto using nl_free_uint.
Qed.

Lemma nl_free_zeros (n : nat) : nl_free (zeros n) = true.
Proof. induction n; simpl; auto. Qed.

Lemma nl_free_appendInt (x : Z) (width : nat) :
  nl_free (time.appendInt x width) = true.
Proof.
  unfold time.appendInt.
  rewrite !nl_free_app, nl_free_zeros, nl_free_itoa.
  destruct (x <? 0); reflexivity.
Qed.

Lemma nl_free_lookup_default (l : list string) (i : nat) :
  forallb nl_free l = true -> nl_free (default EmptyString (l !! i)) = true.
Proof.
  revert i. induction l as [|x l IH]; intros i H.
  - destruct i; reflexivity.
  - simpl in H. apply andb_true_iff in H as [Hx Hl].
    destruct i; simpl; auto.
Qed.

Lemma nl_free_elem (l : list string) (x : string) :
  forallb nl_free l = true -> x ∈ l -> nl_free x = true.
Proof.
  intros H Hx. rewrite forallb_forall in H.
  apply H. by apply list_elem_of_In.
Qed.

Lemma nl_free_formatStd (t : Time) (e : time.std) :
  nl_free (time.formatStd t e) = true.
Proof.
  destruct e; simpl; try apply nl_free_appendInt;
    apply nl_free_lookup_default; reflexivity.
Qed.

Lemma nl_free_formatFrom (t : Time) (layout : string) :
  forall skip, nl_free layout = true ->
  nl_free (time.formatFrom t skip layout) = true.
Proof.
  induction layout as [|c rest IH]; intros skip H; [reflexivity|].
  pose proof H as H'. simpl in H'. apply andb_true_iff in H' as [Hc Hrest].
  cbn [time.formatFrom].
  destruct skip as [|k]; [|auto].
  destruct (time.stdAt (String c rest)) as [[e n]|].
  - rewrite nl_free_app, nl_free_formatStd. simpl. auto.
  - simpl. rewrite Hc. simpl. auto.
Qed.

Lemma nl_free_Format (t : Time) (layout : string) :
  nl_free layout = true -> nl_free (time.Format t layout) = true.
Proof. apply nl_free_formatFrom. Qed.

Lemma nl_free_IP (ip : IP) : nl_free (net.String_ ip) = true.
Proof.
  destruct ip; simpl; [reflexivity|].
  rewrite !nl_free_app, !nl_free_itoa. reflexivity.
Qed.

Lemma nl_free_hexDigit (d : Z) : nl_free (hexDigit d) = true.
Proof.
  unfold hexDigit. generalize (Z.to_nat d). intros n.
  do 16 (destruct n as [|n]; [reflexivity|]).
  reflexivity.
Qed.

Lemma nl_free_EncodeToString (bs : list Z) :
  nl_free (EncodeToString bs) = true.
Proof.
  induction bs as [|b bs IH]; simpl; [reflexivity|].
  rewrite !nl_free_app, !nl_free_hexDigit, IH. reflexivity.
Qed.

(** ** Wrap-around arithmetic *)

Lemma wrap64_small (z : Z) : - 2 ^ 63 <= z < 2 ^ 63 -> wrap64 z = z.
Proof.
  intros H. unfold wrap64.
  rewrite Z.mod_small by lia. lia.
Qed.

Lemma wrap64_sub (a b : Z) : wrap64 (wrap64 a - wrap64 b) = wrap64 (a - b).
Proof.
  unfold wrap64.
  f_equal.
  replace ((a + 2 ^ 63) mod 2 ^ 64 - 2 ^ 63 - ((b + 2 ^ 63) mod 2 ^ 64 - 2 ^ 63) + 2 ^ 63)
    with ((a + 2 ^ 63) mod 2 ^ 64 - (b + 2 ^ 63) mod 2 ^ 64 + 2 ^ 63) by lia.
  rewrite <- Zplus_mod_idemp_l, <- Zminus_mod, Zplus_mod_idemp_l.
  f_equal. lia.
Qed.

Lemma window_width (t : Time) :
  sub64 (time.UnixNano t)
        (time.UnixNano (time.Add t (neg64 (mul64 20 Minute)))) = window.
Proof.
  unfold sub64, time.UnixNano, time.Add. simpl.
  rewrite wrap64_sub.
  replace (neg64 (mul64 20 Minute)) with (- window) by (vm_compute; reflexivity).
  replace (unixNanos t - (unixNanos t + - window)) with window by lia.
  vm_compute; reflexivity.
Qed.

(** ** Calls that return *)

Lemma returns_ret {A} (a : A) (w : World) (Q : A -> World -> Prop) :
  Q a w -> returns (ret a) w Q.
Proof. intros H. exact H. Qed.

Lemma returns_bind {A B} (m : M A) (k : A -> M B) (w : World)
  (Q : B -> World -> Prop) :
  returns m w (fun a w' => returns (k a) w' Q) -> returns (bind m k) w Q.
Proof.
  unfold returns, bind. destruct (m w) as [a w'|msg]; [auto|tauto].
Qed.

Lemma returns_mono {A} (m : M A) (w : World) (Q Q' : A -> World -> Prop) :
  (forall a w', Q a w' -> Q' a w') -> returns m w Q -> returns m w Q'.
Proof.
  unfold returns. intros HQ. destruct (m w); [apply HQ|tauto].
Qed.

Lemma returns_inv {A} (m : M A) (w : World) (Q : A -> World -> Prop) :
  returns m w Q -> exists a w', m w = Done a w' /\ Q a w'.
Proof.
  unfold returns. destruct (m w) as [a w'|msg]; [eauto|tauto].
Qed.

Lemma returns_Intn (n : Z) (w : World) (Q : Z -> World -> Prop) :
  0 < n -> (forall k, 0 <= k < n -> Q k (advance w)) ->
  returns (rand.Intn n) w Q.
Proof.
  intros Hn HQ. unfold returns, rand.Intn.
  destruct (Z.leb_spec n 0); [lia|].
  apply HQ. apply Z.mod_pos_bound. lia.
Qed.

Lemma returns_index {A} (s : list A) (i : Z) (w : World)
  (Q : A -> World -> Prop) :
  0 <= i < len s -> (forall x, x ∈ s -> Q x w) -> returns (index s i) w Q.
Proof.
  intros Hi HQ. unfold returns, index.
  destruct (Z.ltb_spec i 0); [lia|].
  destruct (s !! Z.to_nat i) as [x|] eqn:E.
  - apply HQ. eapply list_elem_of_lookup_2, E.
  - apply lookup_ge_None in E. unfold len in Hi. lia.
Qed.

Lemma returns_pick {A} (s : list A) (w : World) (Q : A -> World -> Prop) :
  0 < len s -> (forall x, x ∈ s -> Q x (advance w)) -> returns (pick s) w Q.
Proof.
  intros Hs HQ. unfold pick. apply returns_bind.
  apply returns_Intn; [exact Hs|]. intros k Hk.
  apply returns_index; auto.
Qed.

Lemma returns_Port (w : World) (Q : Z -> World -> Prop) :
  (forall p, 0 <= p <= 65535 -> Q p (advance w)) -> returns random.Port w Q.
Proof.
  intros HQ. apply returns_Intn; [lia|]. intros k Hk. apply HQ. lia.
Qed.

Lemma land_255_range (z : Z) : 0 <= Z.land z 255 <= 255.
Proof.
  change (Z.land z 255) with (Z.land z (Z.ones 8)).
  rewrite Z.land_ones by lia.
  pose proof (Z.mod_pos_bound z (2 ^ 8)). lia.
Qed.

Lemma returns_IPv4 (w : World) (Q : IP -> World -> Prop) :
  (forall ip, ipv4_address ip -> Q ip (advance w)) -> returns random.IPv4 w Q.
Proof.
  intros HQ. unfold returns, random.IPv4, bind, rand.Uint32, ret.
  apply HQ. unfold net.IPv4, byte. do 4 eexists.
  split; [reflexivity|]. repeat split; apply land_255_range.
Qed.

Lemma returns_Now (w : World) (Q : Time -> World -> Prop) :
  Q (mkTime (clock w (tick w)) (Local (zone w))) (ticked w) ->
  returns time.Now w Q.
Proof. intros H. exact H. Qed.

Lemma returns_Read (n : nat) :
  forall (Q : list Z -> World -> Prop) w,
    (forall bs w', length bs = n -> Q bs w') -> returns (rand.Read n) w Q.
Proof.
  induction n as [|n IH]; intros Q w HQ.
  - apply HQ. reflexivity.
  - specialize (IH (fun bs w' => Q (raw w mod 256 :: bs) w') (advance w)).
    unfold returns in *. simpl.
    destruct (rand.Read n (advance w)) as [bs w'|msg]; apply IH;
      intros bs' w'' Hbs; apply HQ; simpl; by rewrite Hbs.
Qed.

(** ** The random time of day *)

Lemma drawnOffset_range (w : World) : 0 <= drawnOffset w < window.
Proof. apply Z.mod_pos_bound. reflexivity. Qed.

Lemma Randomtime_run (w : World) :
  random.Randomtime w =
  Done (time.Format (randomTimestamp w) "15:04:05") (reseeded w).
Proof.
  unfold random.Randomtime, bind, time.Now, rand.Seed.
  rewrite window_width.
  unfold rand.Int63n. change (window <=? 0) with false. cbv iota.
  unfold ret, advance, raw. cbn [seq pos prng clock tick zone].
  fold (seedReading w).
  fold (drawnOffset w).
  unfold randomTimestamp, reseeded, time.Add, callTime.
  cbn [unixNanos loc].
  replace (mul64 (drawnOffset w) Nanosecond) with (drawnOffset w).
  - replace (neg64 (mul64 20 Minute)) with (- window) by (vm_compute; reflexivity).
    reflexivity.
  - unfold mul64, Nanosecond. rewrite Z.mul_1_r.
    pose proof (drawnOffset_range w). unfold window in *.
    symmetry. apply wrap64_small. lia.
Qed.

Lemma Format_clock (t : Time) :
  time.Format t "15:04:05" =
  clockText (time.Hour t) (time.Minute t) (time.Second t).
Proof. reflexivity. Qed.

Lemma clock_string_Format (t : Time) :
  clock_string (time.Format t "15:04:05").
Proof.
  exists (time.Hour t), (time.Minute t), (time.Second t).
  unfold time.Hour, time.Minute, time.Second.
  pose proof (Z.mod_pos_bound (time.localSeconds t) 86400 eq_refl) as Hd.
  set (s := time.localSeconds t mod 86400) in *.
  assert (0 <= s mod 3600 < 3600) by (apply Z.mod_pos_bound; lia).
  assert (0 <= s mod 60 < 60) by (apply Z.mod_pos_bound; lia).
  assert (0 <= s / 3600 < 24)
    by (split; [apply Z.div_pos|apply Z.div_lt_upper_bound]; lia).
  assert (0 <= s mod 3600 / 60 < 60)
    by (split; [apply Z.div_pos|apply Z.div_lt_upper_bound]; lia).
  repeat split; lia.
Qed.

Lemma nl_free_clock_string (s : string) : clock_string s -> nl_free s = true.
Proof.
  intros (h & m & sec & _ & _ & _ & ->).
  apply nl_free_cat. simpl. rewrite !nl_free_appendInt. reflexivity.
Qed.

Lemma length_append (a b : string) :
  String.length (a +:+ b) = (String.length a + String.length b)%nat.
Proof.
  induction a as [|c a IH]; [reflexivity|].
  change (S (String.length (a +:+ b)) = S (String.length a + String.length b)).
  by rewrite IH.
Qed.

Lemma appendInt_two_digits (x : Z) :
  0 <= x < 100 -> String.length (time.appendInt x 2) = 2%nat.
Proof.
  intros Hx.
  assert (H : forallb
                (fun n => Nat.eqb (String.length (time.appendInt (Z.of_nat n) 2)) 2)
                (List.seq 0 100) = true) by (vm_compute; reflexivity).
  rewrite forallb_forall in H.
  specialize (H (Z.to_nat x)). rewrite Z2Nat.id in H by lia.
  apply Nat.eqb_eq, H, in_seq. lia.
Qed.

Lemma clock_string_length (s : string) :
  clock_string s -> String.length s = 8%nat.
Proof.
  intros (h & m & sec & Hh & Hm & Hs & ->).
  unfold clockText, cat. cbn [foldr].
  rewrite !length_append, !appendInt_two_digits by lia. reflexivity.
Qed.

Lemma returns_Randomtime (w : World) (Q : string -> World -> Prop) :
  (forall s, clock_string s -> Q s (reseeded w)) ->
  returns random.Randomtime w Q.
Proof.
  intros HQ. unfold returns. rewrite Randomtime_run.
  apply HQ, clock_string_Format.
Qed.

(** ** Randomization *)

Ltac draw :=
  cbv beta;
  lazymatch goal with
  | |- returns (bind _ _) _ _ => apply returns_bind
  | |- returns random.Randomtime _ _ => apply returns_Randomtime; intros ? ?
  | |- returns time.Now _ _ => apply returns_Now
  | |- returns random.Port _ _ => apply returns_Port; intros ? ?
  | |- returns random.IPv4 _ _ => apply returns_IPv4; intros ? ?
  | |- returns (pick _) _ _ => apply returns_pick; [reflexivity | intros ? ?]
  | |- returns (cef.randString _) _ _ =>
      apply returns_pick; [reflexivity | intros ? ?]
  | |- returns (rand.Read _) _ _ => apply returns_Read; intros ? ? ?
  | |- returns (rand.Intn _) _ _ => apply returns_Intn; [lia | intros ? ?]
  end.

Lemma fw_randomize_returns (f : firewall.Firewall) (w : World) :
  returns (firewall.randomize f) w (fun f' _ =>
    fw_domain f' /\
    firewall.Templates f' = firewall.Templates f /\
    firewall.Direction f' = firewall.Direction f /\
    firewall.ReceivedBytes f' = firewall.ReceivedBytes f).
Proof.
  unfold firewall.randomize. cbv zeta.
  repeat draw.
  apply returns_ret.
  split; [|auto].
  constructor; cbn [firewall.Timestamp firewall.Date firewall.DevId
    firewall.DevName firewall.DstIp firewall.DstPort firewall.Duration
    firewall.Interface1 firewall.Interface2 firewall.InterfaceRole1
    firewall.InterfaceRole2 firewall.Level firewall.LogId firewall.PolicyId
    firewall.Protocol firewall.QueryName firewall.QueryType
    firewall.SentBytes firewall.SentPackets firewall.Server
    firewall.SessionId firewall.SrcIp firewall.SrcPort firewall.Timezone
    firewall.TrafficAction firewall.User firewall.Vd firewall.XId];
    try assumption; try reflexivity; try lia.
  apply wrap64_small. lia.
Qed.

Lemma cef_randomize_returns (c : cef.CEF) (w : World) :
  returns (cef.randomize c) w (fun c' _ =>
    cef_domain c' /\ cef.templates c' = cef.templates c).
Proof.
  unfold cef.randomize. cbv zeta.
  repeat draw.
  apply returns_ret.
  split; [|auto].
  constructor; cbn [cef.Timestamp cef.TimeLayout cef.Facility cef.Priority
    cef.Addr cef.CEFVersion cef.Vendor cef.Product cef.Version cef.Module_
    cef.Violation cef.Severity cef.SrcAddr cef.Geo cef.SrcPort cef.Method
    cef.Request cef.Message cef.EventID cef.TxID cef.Profile cef.PPEID
    cef.SessID cef.SeverityLabel cef.Year cef.ViolationCategory cef.Action];
    try assumption; try reflexivity; try lia.
  - unfold add64. rewrite wrap64_small; lia.
  - match goal with
    | H : 0 <= ?k < 9 |- _ => exists (k + 1); split; [lia|]
    end.
    unfold add64. rewrite wrap64_small; [reflexivity|lia].
  - eauto.
Qed.

(** ** Compiling and rendering the declared templates *)

Lemma fw_parseAll :
  parseAll 0 firewall.msgTemplates =
  Ok [parsed "0" firewall.eventUserTemplate;
      parsed "1" firewall.eventSystemTemplate;
      parsed "2" firewall.utmDnsTemplate;
      parsed "3" firewall.trafficForwardTemplate].
Proof. vm_compute. reflexivity. Qed.

Lemma cef_parseAll :
  parseAll 0 cef.msgTemplates = Ok [parsed "0" cef.tmpl].
Proof. vm_compute. reflexivity. Qed.

Lemma render_eventUser (f : firewall.Firewall) :
  template.Execute (parsed "0" firewall.eventUserTemplate) (firewall.data f)
  = Ok (eventUserLine f).
Proof. reflexivity. Qed.

Lemma render_eventSystem (f : firewall.Firewall) :
  template.Execute (parsed "1" firewall.eventSystemTemplate) (firewall.data f)
  = Ok (eventSystemLine f).
Proof. reflexivity. Qed.

Lemma render_utmDns (f : firewall.Firewall) :
  template.Execute (parsed "2" firewall.utmDnsTemplate) (firewall.data f)
  = Ok (utmDnsLine f).
Proof. reflexivity. Qed.

Lemma render_trafficForward (f : firewall.Firewall) :
  template.Execute (parsed "3" firewall.trafficForwardTemplate) (firewall.data f)
  = Ok (trafficForwardLine f).
Proof. reflexivity. Qed.

Lemma render_cef (c : cef.CEF) :
  template.Execute (parsed "0" cef.tmpl) (cef.data c) = Ok (cefLine c).
Proof.
  unfold cefLine, cef.data, cef.fields.
  destruct (cef.Geo c), (cef.ViolationCategory c); reflexivity.
Qed.

(** ** Construction *)

Lemma fw_compileFrom (sources : list string) :
  forall i f,
    firewall.compileFrom i sources f =
    match parseAll i sources with
    | Ok ts => Ok (firewall.setTemplates f (firewall.Templates f ++ ts))
    | Err e => Err (TemplateError e)
    end.
Proof.
  induction sources as [|v rest IH]; intros i f; simpl.
  - destruct f; simpl. by rewrite app_nil_r.
  - destruct (template.Parse (itoa i) v) as [t|e]; simpl; [|reflexivity].
    rewrite IH.
    destruct (parseAll (i + 1) rest) as [ts|e]; simpl; [|reflexivity].
    destruct f; simpl. by rewrite <- app_assoc.
Qed.

Lemma cef_compileFrom (sources : list string) :
  forall i c,
    cef.compileFrom i sources c =
    match parseAll i sources with
    | Ok ts => Ok (cef.setTemplates c (cef.templates c ++ ts))
    | Err e => Err (TemplateError e)
    end.
Proof.
  induction sources as [|v rest IH]; intros i c; simpl.
  - destruct c; simpl. by rewrite app_nil_r.
  - destruct (template.Parse (itoa i) v) as [t|e]; simpl; [|reflexivity].
    rewrite IH.
    destruct (parseAll (i + 1) rest) as [ts|e]; simpl; [|reflexivity].
    destruct c; simpl. by rewrite <- app_assoc.
Qed.

(** A source that does not compile, and where. *)
Lemma parseAll_Err (sources : list string) :
  forall i,
    (exists e, parseAll i sources = Err e) <->
    (exists (k : nat) v e,
        sources !! k = Some v /\ template.Parse (itoa (i + Z.of_nat k)) v = Err e).
Proof.
  induction sources as [|v rest IH]; intros i; simpl.
  - split; [intros [e He]; discriminate|].
    intros (k & v & e & Hk & _). by rewrite lookup_nil in Hk.
  - destruct (template.Parse (itoa i) v) as [t|e] eqn:Hv; simpl.
    + destruct (parseAll (i + 1) rest) as [ts|e] eqn:Hrest; simpl.
      * split; [intros [e He]; discriminate|].
        intros ([|k] & v' & e & Hk & He); simpl in Hk.
        -- injection Hk as <-. rewrite Z.add_0_r in He. congruence.
        -- assert (Hex : exists e', parseAll (i + 1) rest = Err e').
           { apply IH. exists k, v', e. split; [exact Hk|].
             rewrite <- He. f_equal. f_equal. lia. }
           destruct Hex as [e' He']. congruence.
      * split; [|eauto]. intros _.
        assert (Hex : exists e', parseAll (i + 1) rest = Err e') by eauto.
        apply IH in Hex as (k & v' & e' & Hk & He').
        exists (S k), v', e'. split; [exact Hk|].
        rewrite <- He'. f_equal. f_equal. lia.
    + split; [|eauto]. intros _.
      exists O, v, e. split; [reflexivity|]. by rewrite Z.add_0_r.
Qed.

Lemma fw_NewFrom_run (sources : list string) (cfg : ucfg.Config) (w : World) :
  match ucfg.Unpack cfg with
  | Some msg => firewall.NewFrom sources cfg w = Done (Err (ConfigError msg)) w
  | None =>
      exists f0 w',
        firewall.randomize firewall.zero w = Done f0 w' /\
        fw_domain f0 /\
        firewall.Templates f0 = [] /\
        firewall.NewFrom sources cfg w =
        Done (match parseAll 0 sources with
              | Ok ts => Ok (firewall.setTemplates f0 ts)
              | Err e => Err (TemplateError e)
              end) w'
  end.
Proof.
  unfold firewall.NewFrom.
  destruct (ucfg.Unpack cfg) as [msg|]; [reflexivity|].
  destruct (returns_inv _ _ _ (fw_randomize_returns firewall.zero w))
    as (f0 & w' & Hrun & Hdom & Htpl & _).
  exists f0, w'.
  split; [exact Hrun|]. split; [exact Hdom|]. split; [exact Htpl|].
  unfold bind. rewrite Hrun. unfold ret.
  rewrite fw_compileFrom, Htpl. reflexivity.
Qed.

Lemma cef_NewFrom_run (sources : list string) (cfg : ucfg.Config) (w : World) :
  match ucfg.Unpack cfg with
  | Some msg => cef.NewFrom sources cfg w = Done (Err (ConfigError msg)) w
  | None =>
      exists c0 w',
        cef.randomize cef.zero w = Done c0 w' /\
        cef_domain c0 /\
        cef.templates c0 = [] /\
        cef.NewFrom sources cfg w =
        Done (match parseAll 0 sources with
              | Ok ts => Ok (cef.setTemplates c0 ts)
              | Err e => Err (TemplateError e)
              end) w'
  end.
Proof.
  unfold cef.NewFrom.
  destruct (ucfg.Unpack cfg) as [msg|]; [reflexivity|].
  destruct (returns_inv _ _ _ (cef_randomize_returns cef.zero w))
    as (c0 & w' & Hrun & Hdom & Htpl).
  exists c0, w'.
  split; [exact Hrun|]. split; [exact Hdom|]. split; [exact Htpl|].
  unfold bind. rewrite Hrun. unfold ret.
  rewrite cef_compileFrom, Htpl. reflexivity.
Qed.

(** ** One call of [Next] *)

Lemma fw_Next_run (f : firewall.Firewall) (w : World) (t : template.Template) :
  firewall.Templates f !! selected (len (firewall.Templates f)) w = Some t ->
  firewall.Next f w =
  match template.Execute t (firewall.data f) with
  | Err e => Done (Err (RenderError e), f) (advance w)
  | Ok buf =>
      match firewall.randomize f (advance w) with
      | Done f' w' => Done (Ok buf, f') w'
      | Panic msg => Panic msg
      end
  end.
Proof.
  unfold selected. intros Ht.
  assert (Hn : 0 < len (firewall.Templates f)).
  { apply lookup_lt_Some in Ht. unfold len.
    destruct (firewall.Templates f); simpl in *; lia. }
  unfold firewall.Next, bind, rand.Intn, index.
  destruct (Z.leb_spec (len (firewall.Templates f)) 0); [lia|].
  pose proof (Z.mod_pos_bound (raw w) _ Hn) as Hr.
  destruct (Z.ltb_spec (raw w mod len (firewall.Templates f)) 0); [lia|].
  rewrite Ht. unfold ret.
  destruct (template.Execute t (firewall.data f)); reflexivity.
Qed.

Lemma cef_Next_run (c : cef.CEF) (w : World) (t : template.Template) :
  cef.templates c !! selected (len (cef.templates c)) w = Some t ->
  cef.Next c w =
  match template.Execute t (cef.data c) with
  | Err e => Done (Err (RenderError e), c) (advance w)
  | Ok buf =>
      match cef.randomize c (advance w) with
      | Done c' w' => Done (Ok buf, c') w'
      | Panic msg => Panic msg
      end
  end.
Proof.
  unfold selected. intros Ht.
  assert (Hn : 0 < len (cef.templates c)).
  { apply lookup_lt_Some in Ht. unfold len.
    destruct (cef.templates c); simpl in *; lia. }
  unfold cef.Next, bind, rand.Intn, index.
  destruct (Z.leb_spec (len (cef.templates c)) 0); [lia|].
  pose proof (Z.mod_pos_bound (raw w) _ Hn) as Hr.
  destruct (Z.ltb_spec (raw w mod len (cef.templates c)) 0); [lia|].
  rewrite Ht. unfold ret.
  destruct (template.Execute t (cef.data c)); reflexivity.
Qed.

(** ** Constructed generators *)

Lemma fw_compiled :
  compiledOf fortinet =
  [parsed "0" firewall.eventUserTemplate;
   parsed "1" firewall.eventSystemTemplate;
   parsed "2" firewall.utmDnsTemplate;
   parsed "3" firewall.trafficForwardTemplate].
Proof.
  unfold compiledOf. change (sourcesOf fortinet) with firewall.msgTemplates.
  by rewrite fw_parseAll.
Qed.

Lemma cef_compiled : compiledOf citrix = [parsed "0" cef.tmpl].
Proof.
  unfold compiledOf. change (sourcesOf citrix) with cef.msgTemplates.
  by rewrite cef_parseAll.
Qed.

Lemma fw_domain_setTemplates (f : firewall.Firewall) ts :
  fw_domain f -> fw_domain (firewall.setTemplates f ts).
Proof. destruct f. intros []. constructor; assumption. Qed.

Lemma cef_domain_setTemplates (c : cef.CEF) ts :
  cef_domain c -> cef_domain (cef.setTemplates c ts).
Proof. destruct c. intros []. constructor; assumption. Qed.

Lemma selected_lt (n : Z) (w : World) : 0 < n -> (selected n w < Z.to_nat n)%nat.
Proof.
  intros Hn. unfold selected.
  pose proof (Z.mod_pos_bound (raw w) n Hn). lia.
Qed.

(** What [Next] does on a firewall generator that holds the compiled
    templates. *)
Lemma fw_Next_compiled (f : firewall.Firewall) (w : World) :
  firewall.Templates f = compiledOf fortinet ->
  exists t line f' w',
    firewall.Templates f !! selected 4 w = Some t /\
    template.Execute t (firewall.data f) = Ok line /\
    fw_lines f !! selected 4 w = Some line /\
    firewall.randomize f (advance w) = Done f' w' /\
    firewall.Next f w = Done (Ok line, f') w' /\
    fw_domain f' /\
    firewall.Templates f' = firewall.Templates f.
Proof.
  intros Htpl.
  destruct (returns_inv _ _ _ (fw_randomize_returns f (advance w)))
    as (f' & w' & Hrun & Hdom & Hkeep & _).
  pose proof (selected_lt 4 w eq_refl) as Hsel.
  assert (Hlen : len (firewall.Templates f) = 4)
    by (rewrite Htpl, fw_compiled; reflexivity).
  assert (Hcase : exists t line,
    firewall.Templates f !! selected 4 w = Some t /\
    fw_lines f !! selected 4 w = Some line /\
    template.Execute t (firewall.data f) = Ok line).
  { rewrite Htpl, fw_compiled.
    destruct (selected 4 w) as [|[|[|[|k]]]]; simpl in Hsel; [| | | |lia];
      eexists; eexists; (split; [reflexivity|]); (split; [reflexivity|]).
    - apply render_eventUser.
    - apply render_eventSystem.
    - apply render_utmDns.
    - apply render_trafficForward. }
  destruct Hcase as (t & line & Ht & Hline & Hexec).
  exists t, line, f', w'.
  split; [exact Ht|]. split; [exact Hexec|].
  split; [exact Hline|]. split; [exact Hrun|].
  split; [|auto].
  rewrite (fw_Next_run f w t) by (rewrite Hlen; exact Ht).
  by rewrite Hexec, Hrun.
Qed.

Lemma cef_Next_compiled (c : cef.CEF) (w : World) :
  cef.templates c = compiledOf citrix ->
  exists t line c' w',
    cef.templates c !! selected 1 w = Some t /\
    template.Execute t (cef.data c) = Ok line /\
    cef_lines c !! selected 1 w = Some line /\
    cef.randomize c (advance w) = Done c' w' /\
    cef.Next c w = Done (Ok line, c') w' /\
    cef_domain c' /\
    cef.templates c' = cef.templates c.
Proof.
  intros Htpl.
  destruct (returns_inv _ _ _ (cef_randomize_returns c (advance w)))
    as (c' & w' & Hrun & Hdom & Hkeep).
  pose proof (selected_lt 1 w eq_refl) as Hsel.
  assert (Hlen : len (cef.templates c) = 1)
    by (rewrite Htpl, cef_compiled; reflexivity).
  assert (Hzero : selected 1 w = O) by (simpl in Hsel; lia).
  assert (Ht : cef.templates c !! selected 1 w = Some (parsed "0" cef.tmpl))
    by (rewrite Hzero, Htpl, cef_compiled; reflexivity).
  exists (parsed "0" cef.tmpl), (cefLine c), c', w'.
  split; [exact Ht|]. split; [apply render_cef|].
  split; [by rewrite Hzero|]. split; [exact Hrun|].
  split; [|auto].
  rewrite (cef_Next_run c w (parsed "0" cef.tmpl)) by (rewrite Hlen; exact Ht).
  by rewrite render_cef, Hrun.
Qed.

Lemma fw_constructed_inv (f : firewall.Firewall) :
  constructed fortinet f ->
  fw_domain f /\ firewall.Templates f = compiledOf fortinet.
Proof.
  induction 1 as [cfg w w' g Hnew | g g' w w' r _ [Hdom Htpl] Hnext].
  - pose proof (fw_NewFrom_run firewall.msgTemplates cfg w) as Hrun.
    unfold NewOf in Hnew. simpl in Hnew.
    destruct (ucfg.Unpack cfg) as [msg|].
    + rewrite Hrun in Hnew. discriminate.
    + destruct Hrun as (f0 & w0 & _ & Hdom & _ & Hrun).
      rewrite Hrun, fw_parseAll in Hnew.
      injection Hnew as <- _.
      split; [by apply fw_domain_setTemplates|].
      rewrite fw_compiled. by destruct f0.
  - simpl in Hnext.
    destruct (fw_Next_compiled g w Htpl)
      as (t & line & f' & w0 & _ & _ & _ & _ & Hrun & Hdom' & Htpl').
    rewrite Hrun in Hnext. injection Hnext as _ <- _.
    split; [exact Hdom'|congruence].
Qed.

Lemma cef_constructed_inv (c : cef.CEF) :
  constructed citrix c ->
  cef_domain c /\ cef.templates c = compiledOf citrix.
Proof.
  induction 1 as [cfg w w' g Hnew | g g' w w' r _ [Hdom Htpl] Hnext].
  - pose proof (cef_NewFrom_run cef.msgTemplates cfg w) as Hrun.
    unfold NewOf in Hnew. simpl in Hnew.
    destruct (ucfg.Unpack cfg) as [msg|].
    + rewrite Hrun in Hnew. discriminate.
    + destruct Hrun as (c0 & w0 & _ & Hdom & _ & Hrun).
      rewrite Hrun, cef_parseAll in Hnew.
      injection Hnew as <- _.
      split; [by apply cef_domain_setTemplates|].
      rewrite cef_compiled. by destruct c0.
  - simpl in Hnext.
    destruct (cef_Next_compiled g w Htpl)
      as (t & line & c' & w0 & _ & _ & _ & _ & Hrun & Hdom' & Htpl').
    rewrite Hrun in Hnext. injection Hnext as _ <- _.
    split; [exact Hdom'|congruence].
Qed.

(** ** The lines of constructed generators *)

Lemma append_nonempty (a b : string) (c : ascii) : a +:+ String c b <> EmptyString.
Proof. destruct a; discriminate. Qed.

Ltac nl_pieces :=
  apply nl_free_cat; cbn [forallb];
  repeat (apply andb_true_intro; split);
  first
    [ reflexivity
    | assumption
    | apply nl_free_itoa
    | apply nl_free_IP
    | apply nl_free_Format; first [reflexivity | assumption] ].

Lemma fw_lines_nl_free (f : firewall.Firewall) (line : string) :
  fw_domain f -> line ∈ fw_lines f ->
  nl_free line = true /\ line <> EmptyString.
Proof.
  intros [] Hline.
  assert (nl_free (firewall.Timestamp f) = true)
    by (by apply nl_free_clock_string).
  assert (nl_free (firewall.DevName f) = true)
    by (by eapply (nl_free_elem firewall.devices)).
  assert (nl_free (firewall.DevId f) = true)
    by (by eapply (nl_free_elem firewall.devid)).
  assert (nl_free (firewall.Timezone f) = true) by (by rewrite fw_Timezone0).
  assert (nl_free (firewall.Vd f) = true) by (by rewrite fw_Vd0).
  assert (nl_free (firewall.User f) = true)
    by (by eapply (nl_free_elem firewall.users)).
  assert (nl_free (firewall.Server f) = true)
    by (by eapply (nl_free_elem firewall.servers)).
  assert (nl_free (firewall.Interface1 f) = true)
    by (by eapply (nl_free_elem firewall.interfaces)).
  assert (nl_free (firewall.Interface2 f) = true)
    by (by eapply (nl_free_elem firewall.interfaces)).
  assert (nl_free (firewall.InterfaceRole1 f) = true)
    by (by eapply (nl_free_elem firewall.roles)).
  assert (nl_free (firewall.InterfaceRole2 f) = true)
    by (by eapply (nl_free_elem firewall.roles)).
  assert (nl_free (firewall.QueryName f) = true)
    by (by eapply (nl_free_elem firewall.queries)).
  assert (nl_free (firewall.QueryType f) = true)
    by (by eapply (nl_free_elem firewall.queryTypes)).
  assert (nl_free (firewall.Level f) = true)
    by (by eapply (nl_free_elem firewall.levels)).
  assert (nl_free (firewall.TrafficAction f) = true)
    by (by eapply (nl_free_elem firewall.trafficActions)).
  unfold fw_lines in Hline.
  repeat (apply elem_of_cons in Hline as [-> | Hline]);
    [| | | |by apply elem_of_nil in Hline];
    (split; [nl_pieces | discriminate]).
Qed.

Lemma cef_lines_nl_free (c : cef.CEF) (line : string) :
  cef_domain c -> line ∈ cef_lines c ->
  nl_free line = true /\ line <> EmptyString.
Proof.
  intros [] Hline.
  assert (nl_free (cef.TimeLayout c) = true)
    by (by eapply (nl_free_elem cef.timeLayouts)).
  assert (nl_free (cef.Facility c) = true)
    by (by eapply (nl_free_elem cef.facilities)).
  assert (nl_free (cef.Priority c) = true)
    by (by eapply (nl_free_elem cef.priorities)).
  assert (nl_free (cef.Vendor c) = true)
    by (by eapply (nl_free_elem cef.vendors)).
  assert (nl_free (cef.Product c) = true)
    by (by eapply (nl_free_elem cef.products)).
  assert (nl_free (cef.Version c) = true)
    by (by eapply (nl_free_elem cef.versions)).
  assert (nl_free (cef.Module_ c) = true)
    by (by eapply (nl_free_elem cef.modules)).
  assert (nl_free (cef.Violation c) = true)
    by (by eapply (nl_free_elem cef.violations)).
  assert (nl_free (cef.Geo c) = true)
    by (by eapply (nl_free_elem cef.locations)).
  assert (nl_free (cef.Method c) = true)
    by (by eapply (nl_free_elem cef.methods)).
  assert (nl_free (cef.Request c) = true)
    by (by eapply (nl_free_elem cef.requests)).
  assert (nl_free (cef.Message c) = true)
    by (by eapply (nl_free_elem cef.messages)).
  assert (nl_free (cef.Profile c) = true)
    by (by eapply (nl_free_elem cef.profiles)).
  assert (nl_free (cef.SeverityLabel c) = true)
    by (by eapply (nl_free_elem cef.severityLabels)).
  assert (nl_free (cef.ViolationCategory c) = true)
    by (by eapply (nl_free_elem cef.violationCategory)).
  assert (nl_free (cef.Action c) = true)
    by (by eapply (nl_free_elem cef.actions)).
  assert (nl_free (cef.PPEID c) = true).
  { destruct cef_PPEID0 as (n & _ & ->).
    rewrite nl_free_app, nl_free_itoa. reflexivity. }
  assert (nl_free (cef.SessID c) = true).
  { destruct cef_SessID0 as (bs & _ & ->). apply nl_free_EncodeToString. }
  assert (Hopt : forall label v, nl_free label = true -> nl_free v = true ->
                            nl_free (optional label v) = true).
  { intros label v Hl Hv. unfold optional.
    destruct v; [reflexivity|].
    apply nl_free_cat. cbn [forallb]. by rewrite Hl, Hv. }
  apply list_elem_of_singleton in Hline as ->.
  split.
  - apply nl_free_cat; cbn [forallb];
      repeat (apply andb_true_intro; split);
      first
        [ reflexivity
        | assumption
        | apply nl_free_itoa
        | apply nl_free_IP
        | apply nl_free_Format; assumption
        | apply Hopt; first [reflexivity | assumption] ].
  - unfold cefLine, cat. cbn [foldr]. apply append_nonempty.
Qed.

Lemma cat_app (l1 l2 : list string) : cat (l1 ++ l2) = cat l1 +:+ cat l2.
Proof.
  induction l1 as [|x l1 IH]; simpl; [reflexivity|].
  rewrite IH. clear IH.
  generalize (cat l1) (cat l2). intros a b.
  induction x as [|c x IHx]; [reflexivity|].
  change (String c (x +:+ a +:+ b) = String c ((x +:+ a) +:+ b)).
  by rewrite IHx.
Qed.

Lemma sampleFirewall_constructed : constructed fortinet sampleFirewall.
Proof.
  apply (constructed_New fortinet sampleConfig sampleWorld
           (afterNew (firewall.New sampleConfig sampleWorld))).
  vm_compute. reflexivity.
Qed.

Lemma sampleCEF_constructed : constructed citrix sampleCEF.
Proof.
  apply (constructed_New citrix sampleConfig sampleWorld
           (afterNew (cef.New sampleConfig sampleWorld))).
  vm_compute. reflexivity.
Qed.

(** Randomization of a firewall record carries the direction over. *)
Lemma fw_randomize_differs (f1 f2 : firewall.Firewall) (w : World) :
  firewall.Direction f1 <> firewall.Direction f2 ->
  firewall.randomize f1 w <> firewall.randomize f2 w.
Proof.
  intros Hne Heq.
  destruct (returns_inv _ _ _ (fw_randomize_returns f1 w))
    as (g1 & w1 & Hrun1 & _ & _ & Hdir1 & _).
  destruct (returns_inv _ _ _ (fw_randomize_returns f2 w))
    as (g2 & w2 & Hrun2 & _ & _ & Hdir2 & _).
  rewrite Hrun1, Hrun2 in Heq. injection Heq as Hg _.
  apply Hne. by rewrite <- Hdir1, <- Hdir2, Hg.
Qed.

(** * The claims *)

(** ** C1: the documented event/user line *)

(** C1: for the Fortinet firewall generator, rendering the event/user
    template against a record with Timestamp 03:04:05, DevName testswitch3,
    DevId testrouter, LogId 123456789, Level error, Vd root, User user07,
    Server srv7, SrcIp 142.155.32.170 and Timezone -0500 produces exactly
    the documented line, with the date of the record formatted as
    2006-01-02 in UTC and its Unix seconds as eventtime; and [Next] returns
    that line when its draw selects the first template. *)
Theorem C1_event_user_fixture (f : firewall.Firewall) :
  firewall.Timestamp f = "03:04:05" ->
  firewall.DevName f = "testswitch3" ->
  firewall.DevId f = "testrouter" ->
  firewall.LogId f = 123456789 ->
  firewall.Level f = "error" ->
  firewall.Vd f = "root" ->
  firewall.User f = "user07" ->
  firewall.Server f = "srv7" ->
  firewall.SrcIp f = IPv4addr 142 155 32 170 ->
  firewall.Timezone f = "-0500" ->
  template.Execute (parsed "0" firewall.eventUserTemplate) (firewall.data f)
  = Ok (fixtureLine (firewall.Date f)) /\
  forall w,
    firewall.Templates f = compiledOf fortinet ->
    selected 4 w = O ->
    exists f' w',
      firewall.Next f w = Done (Ok (fixtureLine (firewall.Date f)), f') w'.
Proof.
  intros HTs HName HId HLog HLevel HVd HUser HServer HIp HTz.
  assert (Hline : eventUserLine f = fixtureLine (firewall.Date f)).
  { unfold eventUserLine.
    rewrite HTs, HName, HId, HLog, HLevel, HVd, HUser, HServer, HIp, HTz.
    reflexivity. }
  split.
  - rewrite render_eventUser. by rewrite Hline.
  - intros w Htpl Hsel.
    destruct (fw_Next_compiled f w Htpl)
      as (t & line & f' & w' & _ & _ & Hpick & _ & Hnext & _).
    rewrite Hsel in Hpick. simpl in Hpick. injection Hpick as <-.
    exists f', w'. by rewrite <- Hline.
Qed.

Lemma C1_event_user_fixture_witness :
  template.Execute (parsed "0" firewall.eventUserTemplate)
    (firewall.data exampleRecord)
  = Ok ("date=1970-01-02 time=03:04:05 devname=" +:+ q "testswitch3" +:+
        " devid=" +:+ q "testrouter" +:+ " logid=" +:+ q "123456789" +:+
        " type=" +:+ q "event" +:+ " subtype=" +:+ q "user" +:+
        " level=" +:+ q "error" +:+ " vd=" +:+ q "root" +:+
        " eventtime=97445 tz=" +:+ q "-0500" +:+
        " logdesc=" +:+ q "FSSO logon authentication status" +:+
        " srcip=142.155.32.170 user=" +:+ q "user07" +:+
        " server=" +:+ q "srv7" +:+ " action=" +:+ q "FSSO-logon" +:+
        " msg=" +:+
        q "FSSO-logon event from FSSO_srv7: user user07 logged on 142.155.32.170")
  /\ exists f' w',
      firewall.Next exampleRecord (constantWorld 0) =
      Done (Ok (fixtureLine (firewall.Date exampleRecord)), f') w'.
Proof.
  destruct (C1_event_user_fixture exampleRecord
              eq_refl eq_refl eq_refl eq_refl eq_refl
              eq_refl eq_refl eq_refl eq_refl eq_refl) as [Hline Hnext].
  split.
  - exact Hline.
  - exact (Hnext (constantWorld 0) eq_refl eq_refl).
Defined.

(** ** C7: random ports *)

(** C7: [Port] always returns an integer from 0 to 65535: it is one draw
    of [rand.Intn 65536], the draw itself when that lies in the range, so
    that no value outside the range is returned and every value in it is. *)
Theorem C7_Port_range :
  (forall w, exists p,
      random.Port w = Done p (advance w) /\ 0 <= p <= 65535 /\
      p = raw w mod 65536) /\
  (forall p, 0 <= p <= 65535 ->
     random.Port (constantWorld p) = Done p (advance (constantWorld p))).
Proof.
  split.
  - intros w. exists (raw w mod 65536).
    split; [reflexivity|]. split; [|reflexivity].
    pose proof (Z.mod_pos_bound (raw w) 65536 eq_refl). lia.
  - intros p Hp. unfold random.Port, rand.Intn. cbn.
    rewrite Z.mod_small by lia. reflexivity.
Qed.

Lemma C7_Port_range_witness :
  0 <= 65535 <= 65535 /\
  random.Port (constantWorld 65535) =
  Done 65535 (advance (constantWorld 65535)).
Proof.
  split; [lia|].
  apply (proj2 C7_Port_range 65535). lia.
Defined.

(** ** C8: the random time of day *)

(** C8: [Randomtime] returns the text hour:minute:second (two digits each,
    eight bytes) of an instant in the twenty minutes that end at the time
    of the call, and leaves the random source reseeded from the clock: on
    the stream of the seed it read from the clock, one draw in. *)
Theorem C8_Randomtime_window (w : World) :
  exists (t : Z) (s : string) (w' : World),
    random.Randomtime w = Done s w' /\
    callTime w - 20 * Minute <= t < callTime w /\
    s = time.Format (mkTime t (Local (zone w))) "15:04:05" /\
    clock_string s /\
    String.length s = 8%nat /\
    seq w' = prng w (time.UnixNano (mkTime (clock w (tick w)) (Local (zone w)))) /\
    pos w' = 1%nat.
Proof.
  exists (callTime w - window + drawnOffset w).
  exists (time.Format (randomTimestamp w) "15:04:05"), (reseeded w).
  split; [apply Randomtime_run|].
  split.
  { pose proof (drawnOffset_range w).
    change (20 * Minute) with window. lia. }
  split; [reflexivity|].
  split; [apply clock_string_Format|].
  split; [apply clock_string_length, clock_string_Format|].
  split; reflexivity.
Qed.

(** ** C9: the registry *)

(** C9: registering two constructors under one identifier leaves the
    second one resolvable under it, the registry being what it would be
    had the first never been registered; and [Lookup] of an identifier
    that was never registered finds nothing. *)
Theorem C9_registry_last_wins {Factory : Type} :
  (forall (id : string) (first second : Factory) registry,
      generator.Lookup id
        (generator.Register id second (generator.Register id first registry))
      = Some second /\
      generator.Register id second (generator.Register id first registry)
      = generator.Register id second registry) /\
  (forall (regs : list (string * Factory)) (id : string),
      id ∉ regs.*1 -> generator.Lookup id (generator.registered regs) = None).
Proof.
  split.
  - intros id first second registry.
    unfold generator.Lookup, generator.Register.
    split; [apply lookup_insert_eq | apply insert_insert_eq].
  - intros regs id.
    unfold generator.registered, generator.Lookup, generator.Register.
    assert (Hfold : forall (m : gmap string Factory),
      id ∉ regs.*1 ->
      foldl (fun registry r => <[r.1 := r.2]> registry) m regs !! id = m !! id).
    { induction regs as [|[k c] regs IH]; intros m Hid; simpl; [reflexivity|].
      simpl in Hid. apply not_elem_of_cons in Hid as [Hne Hid].
      rewrite IH by exact Hid. by apply lookup_insert_ne. }
    intros Hid. rewrite Hfold by exact Hid. apply lookup_empty.
Qed.

Lemma C9_registry_last_wins_witness :
  ("syslog:plain" ∉ sampleRegistrations.*1) /\
  generator.Lookup "syslog:plain" (generator.registered sampleRegistrations)
  = None.
Proof.
  assert (H : "syslog:plain" ∉ sampleRegistrations.*1).
  { simpl. intros Hin.
    repeat (apply elem_of_cons in Hin as [Heq | Hin]; [discriminate Heq|]).
    by apply elem_of_nil in Hin. }
  split; [exact H|].
  exact (proj2 C9_registry_last_wins _ _ H).
Defined.

(** ** C10: sent bytes and received bytes *)

(** C10: every randomization of a firewall record leaves SentBytes equal to
    SentPackets times 1500 and ReceivedBytes as it was, so the equation
    holds after construction and after every [Next]; and in every
    traffic/forward line the value of rcvdbyte is the value of sentbyte,
    both being the SentBytes field. *)
Theorem C10_sent_bytes :
  (forall f w, exists f' w',
      firewall.randomize f w = Done f' w' /\
      firewall.SentBytes f' = firewall.SentPackets f' * 1500 /\
      firewall.ReceivedBytes f' = firewall.ReceivedBytes f) /\
  (forall f, constructed fortinet f ->
      firewall.SentBytes f = firewall.SentPackets f * 1500) /\
  (forall f, exists head,
      template.Execute (parsed "3" firewall.trafficForwardTemplate)
        (firewall.data f)
      = Ok (head +:+ " sentbyte=" +:+ itoa (firewall.SentBytes f) +:+
            " rcvdbyte=" +:+ itoa (firewall.SentBytes f) +:+
            " sentpkt=" +:+ itoa (firewall.SentPackets f) +:+
            trafficForwardTail)).
Proof.
  split; [|split].
  - intros f w.
    destruct (returns_inv _ _ _ (fw_randomize_returns f w))
      as (f' & w' & Hrun & Hdom & _ & _ & Hrecv).
    exists f', w'. split; [exact Hrun|]. split; [apply Hdom|exact Hrecv].
  - intros f Hf. apply fw_constructed_inv in Hf as [Hdom _]. apply Hdom.
  - intros f. rewrite render_trafficForward. unfold trafficForwardLine.
    match goal with
    | |- context [cat ?l] =>
        exists (cat (take 42 l));
        replace (cat l) with (cat (take 42 l) +:+ cat (drop 42 l))
          by (rewrite <- cat_app, take_drop; reflexivity)
    end.
    reflexivity.
Qed.

Lemma C10_sent_bytes_witness :
  constructed fortinet sampleFirewall /\
  firewall.SentBytes sampleFirewall = firewall.SentPackets sampleFirewall * 1500.
Proof.
  split; [exact sampleFirewall_constructed|].
  exact (proj1 (proj2 C10_sent_bytes) sampleFirewall sampleFirewall_constructed).
Defined.

(** ** C3: the fields stay in their domains *)

(** C3: after construction and after every [Next], every field of the
    current record lies in its declared domain: each categorical field is a
    member of its lookup table, the ports are between 0 and 65535, the
    other bounded integers within their ranges, and the Severity of a CEF
    record between 1 and 10. *)
Theorem C3_fields_in_domain :
  (forall f, constructed fortinet f -> fw_domain f) /\
  (forall c, constructed citrix c -> cef_domain c).
Proof.
  split.
  - intros f Hf. by apply fw_constructed_inv.
  - intros c Hc. by apply cef_constructed_inv.
Qed.

Lemma C3_fields_in_domain_witness :
  (constructed fortinet sampleFirewall /\ fw_domain sampleFirewall) /\
  (constructed citrix sampleCEF /\ cef_domain sampleCEF).
Proof.
  split; (split; [first [exact sampleFirewall_constructed
                        | exact sampleCEF_constructed]|]).
  - exact (proj1 C3_fields_in_domain sampleFirewall sampleFirewall_constructed).
  - exact (proj2 C3_fields_in_domain sampleCEF sampleCEF_constructed).
Defined.

(** ** C4: one line per call *)

(** C4: for both formats, every [Next] on a constructed generator succeeds,
    and the bytes a successful [Next] returns are not empty and contain no
    line feed. *)
Theorem C4_lines_nonempty_newline_free :
  (forall f, constructed fortinet f -> forall w,
      (exists line f' w', firewall.Next f w = Done (Ok line, f') w') /\
      (forall line f' w', firewall.Next f w = Done (Ok line, f') w' ->
         line <> EmptyString /\ nl_free line = true)) /\
  (forall c, constructed citrix c -> forall w,
      (exists line c' w', cef.Next c w = Done (Ok line, c') w') /\
      (forall line c' w', cef.Next c w = Done (Ok line, c') w' ->
         line <> EmptyString /\ nl_free line = true)).
Proof.
  split.
  - intros f Hf w. apply fw_constructed_inv in Hf as [Hdom Htpl].
    destruct (fw_Next_compiled f w Htpl)
      as (t & line & f' & w' & _ & _ & Hline & _ & Hnext & _).
    split; [eauto|].
    intros line0 f0 w0 Hnext0. rewrite Hnext in Hnext0.
    injection Hnext0 as <- _ _.
    apply list_elem_of_lookup_2 in Hline.
    destruct (fw_lines_nl_free f line Hdom Hline). by split.
  - intros c Hc w. apply cef_constructed_inv in Hc as [Hdom Htpl].
    destruct (cef_Next_compiled c w Htpl)
      as (t & line & c' & w' & _ & _ & Hline & _ & Hnext & _).
    split; [eauto|].
    intros line0 c0 w0 Hnext0. rewrite Hnext in Hnext0.
    injection Hnext0 as <- _ _.
    apply list_elem_of_lookup_2 in Hline.
    destruct (cef_lines_nl_free c line Hdom Hline). by split.
Qed.

Lemma C4_lines_nonempty_newline_free_witness :
  constructed fortinet sampleFirewall /\
  constructed citrix sampleCEF /\
  (exists line f' w',
      firewall.Next sampleFirewall sampleWorld = Done (Ok line, f') w' /\
      line <> EmptyString /\ nl_free line = true) /\
  (exists line c' w',
      cef.Next sampleCEF sampleWorld = Done (Ok line, c') w' /\
      line <> EmptyString /\ nl_free line = true).
Proof.
  split; [exact sampleFirewall_constructed|].
  split; [exact sampleCEF_constructed|].
  split.
  - destruct (proj1 C4_lines_nonempty_newline_free sampleFirewall
                sampleFirewall_constructed sampleWorld)
      as [(line & f' & w' & Hnext) Hall].
    exists line, f', w'. split; [exact Hnext|]. exact (Hall _ _ _ Hnext).
  - destruct (proj2 C4_lines_nonempty_newline_free sampleCEF
                sampleCEF_constructed sampleWorld)
      as [(line & c' & w' & Hnext) Hall].
    exists line, c', w'. split; [exact Hnext|]. exact (Hall _ _ _ Hnext).
Defined.

(** ** C6: a rendering failure changes nothing *)

(** C6: if rendering the selected template fails, [Next] returns the error
    and no bytes, and the generator is left as it was: randomization does
    not run.  Whenever [Next] returns an error the generator is
    unchanged. *)
Theorem C6_render_failure_atomic :
  (forall (f : firewall.Firewall) w t e,
      firewall.Templates f !! selected (len (firewall.Templates f)) w = Some t ->
      template.Execute t (firewall.data f) = Err e ->
      firewall.Next f w = Done (Err (RenderError e), f) (advance w)) /\
  (forall (c : cef.CEF) w t e,
      cef.templates c !! selected (len (cef.templates c)) w = Some t ->
      template.Execute t (cef.data c) = Err e ->
      cef.Next c w = Done (Err (RenderError e), c) (advance w)) /\
  (forall (f f' : firewall.Firewall) w w' e,
      firewall.Next f w = Done (Err e, f') w' -> f' = f) /\
  (forall (c c' : cef.CEF) w w' e,
      cef.Next c w = Done (Err e, c') w' -> c' = c).
Proof.
  split; [|split; [|split]].
  - intros f w t e Ht He. by rewrite (fw_Next_run f w t Ht), He.
  - intros c w t e Ht He. by rewrite (cef_Next_run c w t Ht), He.
  - intros f f' w w' e.
    unfold firewall.Next, bind, rand.Intn, index, panic, ret.
    destruct (len (firewall.Templates f) <=? 0); [discriminate|].
    destruct (raw w mod len (firewall.Templates f) <? 0); [discriminate|].
    destruct (firewall.Templates f !! _) as [t|]; [|discriminate].
    destruct (template.Execute t (firewall.data f)).
    + destruct (firewall.randomize f (advance w)); discriminate.
    + intros H. by injection H.
  - intros c c' w w' e.
    unfold cef.Next, bind, rand.Intn, index, panic, ret.
    destruct (len (cef.templates c) <=? 0); [discriminate|].
    destruct (raw w mod len (cef.templates c) <? 0); [discriminate|].
    destruct (cef.templates c !! _) as [t|]; [|discriminate].
    destruct (template.Execute t (cef.data c)).
    + destruct (cef.randomize c (advance w)); discriminate.
    + intros H. by injection H.
Qed.

Lemma C6_render_failure_atomic_witness :
  firewall.Next brokenFirewall sampleWorld =
  Done (Err (RenderError (template.NoField "Nope")), brokenFirewall)
       (advance sampleWorld) /\
  cef.Next brokenCEF sampleWorld =
  Done (Err (RenderError (template.NoField "Nope")), brokenCEF)
       (advance sampleWorld).
Proof.
  split.
  - exact (proj1 C6_render_failure_atomic brokenFirewall sampleWorld
             (parsed "0" "{{.Nope}}") (template.NoField "Nope")
             eq_refl eq_refl).
  - exact (proj1 (proj2 C6_render_failure_atomic) brokenCEF sampleWorld
             (parsed "0" "{{.Nope}}") (template.NoField "Nope")
             eq_refl eq_refl).
Defined.

(** ** C5: construction *)

Lemma fw_construction : construction_contract fortinet.
Proof.
  intros sources cfg w.
  cbn [Gen sourcesOf zeroOf randomizeOf templatesOf setTemplatesOf dataOf
       NewFromOf NextOf domainOf fortinet citrix].
  pose proof (fw_NewFrom_run sources cfg w) as Hrun.
  destruct (ucfg.Unpack cfg) as [msg|] eqn:Hcfg.
  - exists (Err (ConfigError msg)), w.
    split; [exact Hrun|]. split; [|eauto].
    split; [by left|eauto].
  - destruct Hrun as (f0 & w' & Hrand & Hdom & _ & Hrun).
    pose proof (parseAll_Err sources 0) as Hfail.
    destruct (parseAll 0 sources) as [ts|pe] eqn:Hparse.
    + exists (Ok (firewall.setTemplates f0 ts)), w'.
      split; [exact Hrun|]. split.
      * split; [intros [e He]; discriminate|].
        intros [Hne | Hbad]; [done|].
        apply Hfail in Hbad as [e He]. discriminate.
      * exists f0, ts.
        split; [exact Hrand|]. split; [reflexivity|]. split; [reflexivity|].
        split; [by destruct f0|by apply fw_domain_setTemplates].
    + exists (Err (TemplateError pe)), w'.
      split; [exact Hrun|]. split; [|right; eauto].
      split; [|eauto]. intros _. right. apply Hfail. eauto.
Qed.

Lemma cef_construction : construction_contract citrix.
Proof.
  intros sources cfg w.
  cbn [Gen sourcesOf zeroOf randomizeOf templatesOf setTemplatesOf dataOf
       NewFromOf NextOf domainOf fortinet citrix].
  pose proof (cef_NewFrom_run sources cfg w) as Hrun.
  destruct (ucfg.Unpack cfg) as [msg|] eqn:Hcfg.
  - exists (Err (ConfigError msg)), w.
    split; [exact Hrun|]. split; [|eauto].
    split; [by left|eauto].
  - destruct Hrun as (c0 & w' & Hrand & Hdom & _ & Hrun).
    pose proof (parseAll_Err sources 0) as Hfail.
    destruct (parseAll 0 sources) as [ts|pe] eqn:Hparse.
    + exists (Ok (cef.setTemplates c0 ts)), w'.
      split; [exact Hrun|]. split.
      * split; [intros [e He]; discriminate|].
        intros [Hne | Hbad]; [done|].
        apply Hfail in Hbad as [e He]. discriminate.
      * exists c0, ts.
        split; [exact Hrand|]. split; [reflexivity|]. split; [reflexivity|].
        split; [by destruct c0|by apply cef_domain_setTemplates].
    + exists (Err (TemplateError pe)), w'.
      split; [exact Hrun|]. split; [|right; eauto].
      split; [|eauto]. intros _. right. apply Hfail. eauto.
Qed.

(** C5: for both formats [New] returns an error, and no generator, exactly
    when the configuration fails to unpack (a [ConfigError]) or one of the
    template sources fails to compile (a [TemplateError]); on success the
    generator is the zero record after one pass of randomization, every
    field in its domain, with the compiled templates attached.  The
    declared sources of both formats compile. *)
Theorem C5_construction :
  construction_contract fortinet /\
  construction_contract citrix /\
  parseAll 0 firewall.msgTemplates = Ok (compiledOf fortinet) /\
  parseAll 0 cef.msgTemplates = Ok (compiledOf citrix).
Proof.
  split; [exact fw_construction|].
  split; [exact cef_construction|].
  split.
  - by rewrite fw_compiled, fw_parseAll.
  - by rewrite cef_compiled, cef_parseAll.
Qed.

Lemma C5_construction_witness :
  (exists e w',
      NewFromOf fortinet ["date={{.Date"] sampleConfig sampleWorld
      = Done (Err e) w') /\
  (exists e w',
      NewFromOf citrix (sourcesOf citrix) brokenConfig sampleWorld
      = Done (Err e) w').
Proof.
  split.
  - destruct (proj1 C5_construction ["date={{.Date"] sampleConfig sampleWorld)
      as (r & w' & Hrun & [_ Hfails] & _).
    destruct Hfails as [e ->]; [|eauto].
    right. exists O, "date={{.Date", template.UnclosedAction.
    split; reflexivity.
  - destruct (proj1 (proj2 C5_construction) (sourcesOf citrix) brokenConfig
                sampleWorld)
      as (r & w' & Hrun & [_ Hfails] & _).
    destruct Hfails as [e ->]; [|eauto].
    left. discriminate.
Defined.

(** ** C2: what one call of [Next] does *)

Lemma every_index_selected (n : Z) (k : nat) :
  (k < Z.to_nat n)%nat -> exists w, selected n w = k.
Proof.
  intros Hk. exists (constantWorld (Z.of_nat k)).
  unfold selected, raw. cbn [seq pos constantWorld].
  rewrite Z.mod_small by lia. apply Nat2Z.id.
Qed.

Lemma fw_next_contract : next_contract fortinet 4.
Proof.
  split; [by rewrite fw_compiled|].
  split; [apply every_index_selected|].
  intros f w Htpl.
  cbn [Gen sourcesOf zeroOf randomizeOf templatesOf setTemplatesOf dataOf
       NewFromOf NextOf domainOf fortinet citrix] in *.
  destruct (fw_Next_compiled f w Htpl)
    as (t & line & f' & w' & Ht & Hexec & _ & Hrun & Hnext & _ & Hkeep).
  exists t, line, f', w'.
  rewrite <- Htpl. repeat (split; [done|]). done.
Qed.

Lemma cef_next_contract : next_contract citrix 1.
Proof.
  split; [by rewrite cef_compiled|].
  split; [apply every_index_selected|].
  intros c w Htpl.
  cbn [Gen sourcesOf zeroOf randomizeOf templatesOf setTemplatesOf dataOf
       NewFromOf NextOf domainOf fortinet citrix] in *.
  destruct (cef_Next_compiled c w Htpl)
    as (t & line & c' & w' & Ht & Hexec & _ & Hrun & Hnext & _ & Hkeep).
  exists t, line, c', w'.
  rewrite <- Htpl. repeat (split; [done|]). done.
Qed.

(** C2, as stated, fails for the firewall format: the randomization of a
    firewall record is not a randomization of every field.  A record with
    a direction and one without are not randomized to the same record: the
    direction and the received bytes a caller has set are still there
    after randomization. *)
Lemma C2_full_randomization_counterexample :
  ~ full_randomization fortinet /\
  exists f' w',
    firewall.randomize inboundFirewall sampleWorld = Done f' w' /\
    firewall.Direction f' = "inbound" /\
    firewall.ReceivedBytes f' = 7.
Proof.
  split.
  - unfold full_randomization.
    cbn [Gen randomizeOf templatesOf fortinet].
    intros Hfull.
    apply (fw_randomize_differs firewall.zero inboundFirewall sampleWorld).
    + unfold firewall.zero, inboundFirewall.
      cbn [firewall.Direction]. discriminate.
    + apply Hfull. reflexivity.
  - destruct (returns_inv _ _ _
                (fw_randomize_returns inboundFirewall sampleWorld))
      as (f' & w' & Hrun & _ & _ & Hdir & Hrecv).
    exists f', w'. split; [exact Hrun|]. split; [exact Hdir|exact Hrecv].
Qed.

(** C2 (amended): for both formats [Next] on a generator with the compiled
    templates (four for the firewall format, one for CEF) selects one of
    them by a draw of [rand.Intn], every one of them for some draw,
    renders it against the record as it stood at entry, and only then
    randomizes the record: every field for CEF, and for the firewall
    format every field but Direction and ReceivedBytes, which
    randomization leaves as they were. *)
Theorem C2_Next_selects_renders_randomizes :
  next_contract fortinet 4 /\
  next_contract citrix 1 /\
  full_randomization citrix /\
  (forall (f1 f2 : firewall.Firewall) w,
      firewall.Templates f1 = firewall.Templates f2 ->
      firewall.Direction f1 = firewall.Direction f2 ->
      firewall.ReceivedBytes f1 = firewall.ReceivedBytes f2 ->
      firewall.randomize f1 w = firewall.randomize f2 w) /\
  (forall (f f' : firewall.Firewall) w w',
      firewall.randomize f w = Done f' w' ->
      firewall.Direction f' = firewall.Direction f /\
      firewall.ReceivedBytes f' = firewall.ReceivedBytes f).
Proof.
  split; [exact fw_next_contract|].
  split; [exact cef_next_contract|].
  split; [|split].
  - intros c1 c2 w Htpl.
    cbn [Gen sourcesOf zeroOf randomizeOf templatesOf setTemplatesOf dataOf
         NewFromOf NextOf domainOf fortinet citrix] in *.
    unfold cef.randomize.
    by rewrite Htpl.
  - intros f1 f2 w Htpl Hdir Hrecv. unfold firewall.randomize.
    by rewrite Htpl, Hdir, Hrecv.
  - intros f f' w w' Hrun.
    destruct (returns_inv _ _ _ (fw_randomize_returns f w))
      as (f0 & w0 & Hrun0 & _ & _ & Hdir & Hrecv).
    rewrite Hrun in Hrun0. injection Hrun0 as <- _. by split.
Qed.

Lemma C2_Next_selects_renders_randomizes_witness :
  templatesOf fortinet sampleFirewall = compiledOf fortinet /\
  exists t line g' w',
    compiledOf fortinet !! selected 4 sampleWorld = Some t /\
    template.Execute t (dataOf fortinet sampleFirewall) = Ok line /\
    randomizeOf fortinet sampleFirewall (advance sampleWorld) = Done g' w' /\
    NextOf fortinet sampleFirewall sampleWorld = Done (Ok line, g') w' /\
    templatesOf fortinet g' = compiledOf fortinet.
Proof.
  assert (H : templatesOf fortinet sampleFirewall = compiledOf fortinet)
    by exact (proj2 (fw_constructed_inv _ sampleFirewall_constructed)).
  split; [exact H|].
  exact (proj2 (proj2 (proj1 C2_Next_selects_renders_randomizes))
           sampleFirewall sampleWorld H).
Defined.

(** * Further properties of the code *)

(** ** Random addresses *)

Lemma bytes_of_fromBytes (u : Z) :
  0 <= u < 2 ^ 32 ->
  fromBytes (byte (Z.land u 255)) (byte (Z.land (Z.shiftr u 8) 255))
            (byte (Z.land (Z.shiftr u 16) 255))
            (byte (Z.land (Z.shiftr u 24) 255)) = u.
Proof.
  intros Hu. unfold fromBytes, byte.
  change 255 with (Z.ones 8).
  rewrite !Z.land_ones, !Z.shiftr_div_pow2 by lia.
  rewrite !Z.mod_mod by lia.
  change (2 ^ 8) with 256. change (2 ^ 16) with 65536.
  change (2 ^ 24) with 16777216. change (2 ^ 32) with 4294967296 in Hu.
  Z.div_mod_to_equations. lia.
Qed.

Lemma fromBytes_bytes (a b c d : Z) :
  0 <= a <= 255 -> 0 <= b <= 255 -> 0 <= c <= 255 -> 0 <= d <= 255 ->
  let u := fromBytes a b c d in
  0 <= u < 2 ^ 32 /\
  byte (Z.land u 255) = a /\
  byte (Z.land (Z.shiftr u 8) 255) = b /\
  byte (Z.land (Z.shiftr u 16) 255) = c /\
  byte (Z.land (Z.shiftr u 24) 255) = d.
Proof.
  intros Ha Hb Hc Hd u. subst u. unfold fromBytes, byte.
  change 255 with (Z.ones 8).
  rewrite !Z.land_ones, !Z.shiftr_div_pow2 by lia.
  rewrite !Z.mod_mod by lia.
  change (2 ^ 8) with 256. change (2 ^ 16) with 65536.
  change (2 ^ 24) with 16777216. change (2 ^ 32) with 4294967296.
  repeat split; try lia; Z.div_mod_to_equations; lia.
Qed.

(** X1: [IPv4] consumes one 32-bit draw and returns the address whose four
    bytes are the bytes of the draw, lowest byte first; every address of
    the IPv4 space is returned for some draw, none is excluded. *)
Theorem X1_IPv4_full_space :
  (forall w, exists a b c d,
      random.IPv4 w = Done (IPv4addr a b c d) (advance w) /\
      0 <= a <= 255 /\ 0 <= b <= 255 /\ 0 <= c <= 255 /\ 0 <= d <= 255 /\
      fromBytes a b c d = raw w mod 2 ^ 32) /\
  (forall a b c d,
      0 <= a <= 255 -> 0 <= b <= 255 -> 0 <= c <= 255 -> 0 <= d <= 255 ->
      random.IPv4 (constantWorld (fromBytes a b c d))
      = Done (IPv4addr a b c d) (advance (constantWorld (fromBytes a b c d)))).
Proof.
  split.
  - intros w.
    pose proof (Z.mod_pos_bound (raw w) (2 ^ 32) eq_refl) as Hu.
    do 4 eexists. split; [reflexivity|].
    repeat (split; [apply land_255_range|]).
    by apply bytes_of_fromBytes.
  - intros a b c d Ha Hb Hc Hd.
    destruct (fromBytes_bytes a b c d Ha Hb Hc Hd) as (Hu & Ea & Eb & Ec & Ed).
    unfold random.IPv4, bind, rand.Uint32, ret, net.IPv4.
    change (raw (constantWorld (fromBytes a b c d))) with (fromBytes a b c d).
    rewrite Z.mod_small by exact Hu.
    by rewrite Ea, Eb, Ec, Ed.
Qed.

Lemma X1_IPv4_full_space_witness :
  random.IPv4 (constantWorld (fromBytes 142 155 32 170))
  = Done (IPv4addr 142 155 32 170)
         (advance (constantWorld (fromBytes 142 155 32 170))).
Proof.
  apply (proj2 X1_IPv4_full_space 142 155 32 170); lia.
Defined.

(** ** Picking from a table *)

(** X2: [randString] panics on an empty table (the argument of [rand.Intn]
    is then zero); on any other table it returns one of its members, the
    one at the index drawn, and consumes one draw. *)
Theorem X2_randString :
  (forall w, cef.randString [] w = Panic "invalid argument to Intn") /\
  (forall (s : list string) w,
      s <> [] ->
      exists x,
        cef.randString s w = Done x (advance w) /\
        s !! selected (len s) w = Some x /\
        x ∈ s).
Proof.
  split; [reflexivity|].
  intros s w Hs.
  assert (Hn : 0 < len s) by (unfold len; destruct s; [done|simpl; lia]).
  pose proof (selected_lt (len s) w Hn) as Hsel.
  destruct (s !! selected (len s) w) as [x|] eqn:Hx.
  - exists x. split; [|split; [reflexivity|by eapply list_elem_of_lookup_2]].
    unfold cef.randString, bind, rand.Intn, index.
    destruct (Z.leb_spec (len s) 0); [lia|].
    pose proof (Z.mod_pos_bound (raw w) _ Hn).
    destruct (Z.ltb_spec (raw w mod len s) 0); [lia|].
    unfold selected in Hx. by rewrite Hx.
  - apply lookup_ge_None in Hx. unfold len in *. lia.
Qed.

Lemma X2_randString_witness :
  cef.methods <> [] /\
  exists x,
    cef.randString cef.methods sampleWorld = Done x (advance sampleWorld) /\
    cef.methods !! selected (len cef.methods) sampleWorld = Some x /\
    x ∈ cef.methods.
Proof.
  assert (H : cef.methods <> []) by discriminate.
  split; [exact H|].
  exact (proj2 X2_randString cef.methods sampleWorld H).
Defined.

(** ** [Next] on any generator *)

(** X3: on a generator that holds no template (one not built by [New]),
    [Next] panics, for both formats: the argument of [rand.Intn] is zero. *)
Theorem X3_Next_without_templates :
  (forall (f : firewall.Firewall) w,
      firewall.Templates f = [] ->
      firewall.Next f w = Panic "invalid argument to Intn") /\
  (forall (c : cef.CEF) w,
      cef.templates c = [] ->
      cef.Next c w = Panic "invalid argument to Intn").
Proof.
  split.
  - intros f w Hf. unfold firewall.Next, bind. by rewrite Hf.
  - intros c w Hc. unfold cef.Next, bind. by rewrite Hc.
Qed.

Lemma X3_Next_without_templates_witness :
  firewall.Next firewall.zero sampleWorld = Panic "invalid argument to Intn" /\
  cef.Next cef.zero sampleWorld = Panic "invalid argument to Intn".
Proof.
  split.
  - exact (proj1 X3_Next_without_templates firewall.zero sampleWorld eq_refl).
  - exact (proj2 X3_Next_without_templates cef.zero sampleWorld eq_refl).
Defined.




(** ** What randomization does to the environment *)

Lemma returns_Read_kept (n : nat) :
  forall (Q : list Z -> World -> Prop) w,
    (forall bs w', length bs = n -> kept w w' -> Q bs w') ->
    returns (rand.Read n) w Q.
Proof.
  induction n as [|n IH]; intros Q w HQ.
  - apply HQ; [reflexivity|]. by repeat split.
  - specialize (IH (fun bs w' => Q (raw w mod 256 :: bs) w') (advance w)).
    unfold returns in *. simpl.
    destruct (rand.Read n (advance w)) as [bs w'|msg]; apply IH;
      intros bs' w'' Hbs Hkept; (apply HQ; [simpl; by rewrite Hbs|]);
      destruct Hkept as (? & ? & ? & ? & ?); by repeat split.
Qed.

Ltac draw_env :=
  cbv beta;
  lazymatch goal with
  | |- returns (bind _ _) _ _ => apply returns_bind
  | |- returns random.Randomtime _ _ => apply returns_Randomtime; intros ? ?
  | |- returns time.Now _ _ => apply returns_Now
  | |- returns random.Port _ _ => apply returns_Port; intros ? ?
  | |- returns random.IPv4 _ _ => apply returns_IPv4; intros ? ?
  | |- returns (pick _) _ _ => apply returns_pick; [reflexivity | intros ? ?]
  | |- returns (cef.randString _) _ _ =>
      apply returns_pick; [reflexivity | intros ? ?]
  | |- returns (rand.Read _) _ _ => apply returns_Read_kept; intros ? ? ? ?
  | |- returns (rand.Intn _) _ _ => apply returns_Intn; [lia | intros ? ?]
  end.

Lemma fw_randomize_env (f : firewall.Firewall) (w : World) :
  returns (firewall.randomize f) w (fun _ w' =>
    seq w' = prng w (seedReading w) /\ prng w' = prng w /\
    clock w' = clock w /\ zone w' = zone w /\ tick w' = (tick w + 3)%nat).
Proof.
  unfold firewall.randomize. cbv zeta.
  repeat draw_env.
  apply returns_ret.
  cbn [seq prng clock zone tick advance ticked reseeded].
  repeat split. lia.
Qed.

Lemma cef_randomize_env (c : cef.CEF) (w : World) :
  returns (cef.randomize c) w (fun _ w' =>
    seq w' = seq w /\ prng w' = prng w /\
    clock w' = clock w /\ zone w' = zone w /\ tick w' = (tick w + 1)%nat).
Proof.
  unfold cef.randomize. cbv zeta.
  repeat draw_env.
  apply returns_ret.
  match goal with H : kept _ _ |- _ => destruct H as (Hs & Hp & Hc & Hz & Ht) end.
  cbn [seq prng clock zone tick advance ticked] in *.
  rewrite Hs, Hp, Hc, Hz, Ht. repeat split. lia.
Qed.

(** X5: randomization of a firewall record reads the clock three times
    and leaves the process-wide random source reseeded, on the stream of
    the seed it read from the clock; randomization of a CEF record reads
    the clock once and leaves the source on the stream it was on. *)
Theorem X5_randomize_and_the_source :
  (forall (f : firewall.Firewall) w, exists f' w',
      firewall.randomize f w = Done f' w' /\
      seq w' = prng w (time.UnixNano (mkTime (clock w (tick w)) (Local (zone w)))) /\
      tick w' = (tick w + 3)%nat) /\
  (forall (c : cef.CEF) w, exists c' w',
      cef.randomize c w = Done c' w' /\
      seq w' = seq w /\
      tick w' = (tick w + 1)%nat).
Proof.
  split.
  - intros f w.
    destruct (returns_inv _ _ _ (fw_randomize_env f w))
      as (f' & w' & Hrun & Hseq & _ & _ & _ & Htick).
    exists f', w'. auto.
  - intros c w.
    destruct (returns_inv _ _ _ (cef_randomize_env c w))
      as (c' & w' & Hrun & Hseq & _ & _ & _ & Htick).
    exists c', w'. auto.
Qed.

(** ** Construction, failures *)

Lemma parseAll_app (pre rest : list string) :
  forall i ts,
    parseAll i pre = Ok ts ->
    parseAll i (pre ++ rest) =
    match parseAll (i + len pre) rest with
    | Ok ts' => Ok (ts ++ ts')
    | Err e => Err e
    end.
Proof.
  induction pre as [|v pre IH]; intros i ts Hpre.
  - injection Hpre as <-. unfold len. simpl. rewrite Z.add_0_r.
    by destruct (parseAll i rest).
  - simpl in Hpre |- *.
    destruct (template.Parse (itoa i) v) as [t|e]; [|discriminate].
    simpl in Hpre |- *.
    destruct (parseAll (i + 1) pre) as [ts0|e] eqn:Hts0; [|discriminate].
    injection Hpre as <-.
    rewrite (IH (i + 1) ts0 Hts0).
    replace (i + 1 + len pre) with (i + len (v :: pre))
      by (unfold len; simpl; lia).
    by destruct (parseAll (i + len (v :: pre)) rest).
Qed.

(** X6: a configuration that fails to unpack ends [New] before anything
    else happens: the environment is untouched, whatever the templates.
    Otherwise the record is randomized before the templates are compiled,
    so that [New] leaves the environment of that randomization even when a
    template fails to compile. *)
Theorem X6_New_order_of_effects :
  (forall sources cfg w msg,
      ucfg.Unpack cfg = Some msg ->
      firewall.NewFrom sources cfg w = Done (Err (ConfigError msg)) w /\
      cef.NewFrom sources cfg w = Done (Err (ConfigError msg)) w) /\
  (forall sources cfg w,
      ucfg.Unpack cfg = None ->
      (exists f0 w' r,
          firewall.randomize firewall.zero w = Done f0 w' /\
          firewall.NewFrom sources cfg w = Done r w') /\
      (exists c0 w' r,
          cef.randomize cef.zero w = Done c0 w' /\
          cef.NewFrom sources cfg w = Done r w')).
Proof.
  split.
  - intros sources cfg w msg Hcfg.
    pose proof (fw_NewFrom_run sources cfg w) as Hfw.
    pose proof (cef_NewFrom_run sources cfg w) as Hcef.
    rewrite Hcfg in Hfw, Hcef. by split.
  - intros sources cfg w Hcfg.
    pose proof (fw_NewFrom_run sources cfg w) as Hfw.
    pose proof (cef_NewFrom_run sources cfg w) as Hcef.
    rewrite Hcfg in Hfw, Hcef.
    destruct Hfw as (f0 & w1 & Hrun1 & _ & _ & Hnew1).
    destruct Hcef as (c0 & w2 & Hrun2 & _ & _ & Hnew2).
    split; [exists f0, w1|exists c0, w2]; eauto.
Qed.

Lemma X6_New_order_of_effects_witness :
  ucfg.Unpack brokenConfig = Some "unknown option" /\
  firewall.NewFrom ["{{.Date"] brokenConfig sampleWorld
  = Done (Err (ConfigError "unknown option")) sampleWorld /\
  cef.NewFrom ["{{.Date"] brokenConfig sampleWorld
  = Done (Err (ConfigError "unknown option")) sampleWorld.
Proof.
  split; [reflexivity|].
  exact (proj1 X6_New_order_of_effects ["{{.Date"] brokenConfig sampleWorld
           "unknown option" eq_refl).
Defined.

(** X7: [New] compiles the templates in order and stops at the first that
    fails: its error is the one returned, whatever follows it in the list. *)
Theorem X7_first_failing_template (pre rest : list string) (bad : string)
  (cfg : ucfg.Config) (w : World) ts pe :
  ucfg.Unpack cfg = None ->
  parseAll 0 pre = Ok ts ->
  template.Parse (itoa (len pre)) bad = Err pe ->
  (exists w', firewall.NewFrom (pre ++ bad :: rest) cfg w
              = Done (Err (TemplateError pe)) w') /\
  (exists w', cef.NewFrom (pre ++ bad :: rest) cfg w
              = Done (Err (TemplateError pe)) w').
Proof.
  intros Hcfg Hpre Hbad.
  assert (Hall : parseAll 0 (pre ++ bad :: rest) = Err pe).
  { rewrite (parseAll_app pre (bad :: rest) 0 ts Hpre).
    cbn [parseAll]. rewrite Z.add_0_l, Hbad. reflexivity. }
  pose proof (fw_NewFrom_run (pre ++ bad :: rest) cfg w) as Hfw.
  pose proof (cef_NewFrom_run (pre ++ bad :: rest) cfg w) as Hcef.
  rewrite Hcfg, Hall in Hfw, Hcef.
  destruct Hfw as (f0 & w1 & _ & _ & _ & Hnew1).
  destruct Hcef as (c0 & w2 & _ & _ & _ & Hnew2).
  split; eauto.
Qed.

Lemma X7_first_failing_template_witness :
  (exists w', firewall.NewFrom ([cef.tmpl] ++ "{{.Date" :: ["{{end}}"])
                sampleConfig sampleWorld
              = Done (Err (TemplateError template.UnclosedAction)) w') /\
  (exists w', cef.NewFrom ([cef.tmpl] ++ "{{.Date" :: ["{{end}}"])
                sampleConfig sampleWorld
              = Done (Err (TemplateError template.UnclosedAction)) w').
Proof.
  apply (X7_first_failing_template [cef.tmpl] ["{{end}}"] "{{.Date"
           sampleConfig sampleWorld [parsed "0" cef.tmpl]
           template.UnclosedAction).
  - reflexivity.
  - vm_compute. reflexivity.
  - vm_compute. reflexivity.
Defined.

(** ** Calls that do not see the state of the random source *)

Lemma same_source_clock (w1 w2 : World) : same_source w1 w2 -> same_clock w1 w2.
Proof. by intros (_ & _ & H). Qed.

Lemma same_source_raw (w1 w2 : World) : same_source w1 w2 -> raw w1 = raw w2.
Proof. intros (Hs & Hp & _). unfold raw. by rewrite Hs, Hp. Qed.

Lemma same_source_advance (w1 w2 : World) :
  same_source w1 w2 -> same_source (advance w1) (advance w2).
Proof.
  intros (Hs & Hp & Hprng & Hz & Hc).
  unfold same_source, same_clock, advance. cbn [seq pos prng zone clock tick].
  rewrite Hp. auto.
Qed.

Lemma agrees_ret {A} (a : A) : agrees same_source (ret a).
Proof. intros w1 w2 H. by split. Qed.

Lemma agrees_panic {A} (msg : string) : agrees same_source (@panic A msg).
Proof. intros w1 w2 H. exact I. Qed.

Lemma agrees_bind {A B} (P : World -> World -> Prop) (m : M A) (k : A -> M B) :
  agrees P m -> (forall a, agrees same_source (k a)) -> agrees P (bind m k).
Proof.
  intros Hm Hk w1 w2 H. specialize (Hm w1 w2 H). unfold bind.
  destruct (m w1) as [a1 w1'|msg1], (m w2) as [a2 w2'|msg2]; try tauto.
  destruct Hm as [<- Hw]. by apply Hk.
Qed.

Lemma agrees_Intn (n : Z) : agrees same_source (rand.Intn n).
Proof.
  intros w1 w2 H. unfold rand.Intn.
  destruct (n <=? 0); [exact I|].
  rewrite (same_source_raw w1 w2 H).
  split; [reflexivity|by apply same_source_advance].
Qed.

Lemma agrees_Uint32 : agrees same_source rand.Uint32.
Proof.
  intros w1 w2 H. unfold rand.Uint32.
  rewrite (same_source_raw w1 w2 H).
  split; [reflexivity|by apply same_source_advance].
Qed.

Lemma agrees_index {A} (s : list A) (i : Z) : agrees same_source (index s i).
Proof.
  unfold index. destruct (i <? 0); [apply agrees_panic|].
  destruct (s !! Z.to_nat i); [apply agrees_ret|apply agrees_panic].
Qed.

Lemma agrees_pick {A} (s : list A) : agrees same_source (pick s).
Proof.
  apply agrees_bind; [apply agrees_Intn|]. intros i. apply agrees_index.
Qed.

Lemma agrees_IPv4 : agrees same_source random.IPv4.
Proof.
  apply agrees_bind; [apply agrees_Uint32|]. intros u. apply agrees_ret.
Qed.

Lemma agrees_Now : agrees same_source time.Now.
Proof.
  intros w1 w2 (Hs & Hpos & Hp & Hz & Hc). unfold time.Now.
  pose proof (Hc O) as H0. rewrite !Nat.add_0_r in H0.
  split; [by rewrite H0, Hz|].
  unfold same_source, same_clock. cbn [seq pos prng zone clock tick].
  repeat (split; [assumption|]).
  intros k. specialize (Hc (S k)). by rewrite !Nat.add_succ_r in Hc.
Qed.

(** [Randomtime] reseeds: the state the source was in plays no part. *)
Lemma agrees_Randomtime : agrees same_clock random.Randomtime.
Proof.
  intros w1 w2 (Hp & Hz & Hc). rewrite !Randomtime_run.
  pose proof (Hc O) as H0. rewrite !Nat.add_0_r in H0.
  pose proof (Hc 1%nat) as H1. rewrite !Nat.add_1_r in H1.
  assert (Hseed : seedReading w1 = seedReading w2)
    by (unfold seedReading; by rewrite H0, Hz).
  assert (Hoff : drawnOffset w1 = drawnOffset w2)
    by (unfold drawnOffset; by rewrite Hseed, Hp).
  split.
  - unfold randomTimestamp, callTime. by rewrite H1, Hoff, Hz.
  - unfold same_source, same_clock, reseeded.
    cbn [seq pos prng zone clock tick].
    rewrite Hseed, Hp. repeat (split; [done|]).
    intros k. specialize (Hc (S (S k))). by rewrite !Nat.add_succ_r in Hc.
Qed.

Ltac agree :=
  cbv beta;
  lazymatch goal with
  | |- agrees _ (bind _ _) => apply agrees_bind; [|intros ?]
  | |- agrees same_clock random.Randomtime => apply agrees_Randomtime
  | |- agrees same_source time.Now => apply agrees_Now
  | |- agrees same_source random.Port => apply agrees_Intn
  | |- agrees same_source random.IPv4 => apply agrees_IPv4
  | |- agrees same_source (pick _) => apply agrees_pick
  | |- agrees same_source (rand.Intn _) => apply agrees_Intn
  | |- agrees same_source (ret _) => apply agrees_ret
  end.

Lemma fw_randomize_agrees (f : firewall.Firewall) :
  agrees same_clock (firewall.randomize f).
Proof. unfold firewall.randomize. cbv zeta. repeat agree. Qed.

Lemma fw_randomize_kept_fields (f1 f2 : firewall.Firewall) (w : World) :
  firewall.Templates f1 = firewall.Templates f2 ->
  firewall.Direction f1 = firewall.Direction f2 ->
  firewall.ReceivedBytes f1 = firewall.ReceivedBytes f2 ->
  firewall.randomize f1 w = firewall.randomize f2 w.
Proof.
  intros Htpl Hdir Hrecv. unfold firewall.randomize.
  by rewrite Htpl, Hdir, Hrecv.
Qed.

(** X8: because [Randomtime] reseeds the source from the clock, its result
    and the state it leaves the source in depend on the clock alone, not
    on the state the source was in; and so does the whole randomization of
    a firewall record, which starts with it. *)
Theorem X8_reseeding_forgets_the_source (w1 w2 : World) :
  same_clock w1 w2 ->
  (exists s w1' w2',
      random.Randomtime w1 = Done s w1' /\
      random.Randomtime w2 = Done s w2' /\
      seq w1' = seq w2' /\ pos w1' = pos w2') /\
  (forall f : firewall.Firewall, exists f' w1' w2',
      firewall.randomize f w1 = Done f' w1' /\
      firewall.randomize f w2 = Done f' w2' /\
      seq w1' = seq w2' /\ pos w1' = pos w2').
Proof.
  intros Hclock. split.
  - pose proof (agrees_Randomtime w1 w2 Hclock) as H.
    rewrite !Randomtime_run in H |- *.
    destruct H as (Hs & Hseq & Hpos & _).
    do 3 eexists. split; [reflexivity|].
    split; [by rewrite Hs|]. by split.
  - intros f.
    pose proof (fw_randomize_agrees f w1 w2 Hclock) as H.
    destruct (returns_inv _ _ _ (fw_randomize_returns f w1))
      as (f1 & w1' & Hrun1 & _).
    destruct (returns_inv _ _ _ (fw_randomize_returns f w2))
      as (f2 & w2' & Hrun2 & _).
    rewrite Hrun1, Hrun2 in H. destruct H as (<- & Hseq & Hpos & _).
    exists f1, w1', w2'. auto.
Qed.

Lemma X8_reseeding_forgets_the_source_witness :
  same_clock sampleWorld (constantWorld 5) /\
  exists s w1' w2',
    random.Randomtime sampleWorld = Done s w1' /\
    random.Randomtime (constantWorld 5) = Done s w2' /\
    seq w1' = seq w2' /\ pos w1' = pos w2'.
Proof.
  assert (H : same_clock sampleWorld (constantWorld 5)).
  { split; [reflexivity|]. split; [reflexivity|]. intros k. reflexivity. }
  split; [exact H|].
  exact (proj1 (X8_reseeding_forgets_the_source sampleWorld (constantWorld 5) H)).
Defined.

(** X9: while the clock does not advance, a firewall generator repeats
    itself: from the second call on, [Next] returns the same line and
    leaves the same record, whatever state the random source was in
    before the first call. *)
Theorem X9_stalled_clock_repeats (f : firewall.Firewall) (w : World) (c : Z) :
  firewall.Templates f = compiledOf fortinet ->
  (forall n, clock w n = c) ->
  exists line0 line f1 w1 w2 w3,
    firewall.Next f w = Done (Ok line0, f1) w1 /\
    firewall.Next f1 w1 = Done (Ok line, f1) w2 /\
    firewall.Next f1 w2 = Done (Ok line, f1) w3.
Proof.
  intros Htpl Hstall.
  destruct (fw_Next_compiled f w Htpl)
    as (t0 & line0 & f1 & w1 & _ & _ & _ & Hrun0 & Hnext0 & _ & Htpl1).
  assert (Htpl1' : firewall.Templates f1 = compiledOf fortinet) by congruence.
  (* what the first randomization keeps *)
  destruct (returns_inv _ _ _ (fw_randomize_returns f (advance w)))
    as (f1' & w1' & Hrun0' & _ & _ & Hdir & Hrecv).
  rewrite Hrun0 in Hrun0'. injection Hrun0' as <- <-.
  destruct (returns_inv _ _ _ (fw_randomize_env f (advance w)))
    as (f1' & w1' & Hrun0' & _ & Hprng & Hclock & Hzone & _).
  rewrite Hrun0 in Hrun0'. injection Hrun0' as <- <-.
  (* the second call *)
  destruct (fw_Next_compiled f1 w1 Htpl1')
    as (t1 & line1 & f2 & w2 & _ & _ & Hline1 & Hrun1 & Hnext1 & _ & _).
  assert (Hsame : same_clock (advance w) (advance w1)).
  { unfold advance in Hprng, Hzone, Hclock.
    cbn [prng zone clock] in Hprng, Hzone, Hclock.
    unfold same_clock, advance. cbn [prng zone clock tick].
    rewrite Hprng, Hzone, Hclock.
    repeat (split; [reflexivity|]). intros k. by rewrite !Hstall. }
  pose proof (fw_randomize_agrees f _ _ Hsame) as Hagree.
  rewrite (fw_randomize_kept_fields f1 f (advance w1) Htpl1 Hdir Hrecv) in Hrun1.
  rewrite Hrun0, Hrun1 in Hagree. destruct Hagree as [<- Hsource].
  (* the third call *)
  destruct (fw_Next_compiled f1 w2 Htpl1')
    as (t2 & line2 & f3 & w3 & _ & _ & Hline2 & Hrun2 & Hnext2 & _ & _).
  unfold selected in Hline1, Hline2.
  rewrite <- (same_source_raw w1 w2 Hsource), Hline1 in Hline2.
  injection Hline2 as <-.
  pose proof (fw_randomize_agrees f _ _
                (same_source_clock _ _ (same_source_advance _ _ Hsource)))
    as Hagree.
  rewrite (fw_randomize_kept_fields f1 f (advance w2) Htpl1 Hdir Hrecv) in Hrun2.
  rewrite Hrun1, Hrun2 in Hagree. destruct Hagree as [<- _].
  exists line0, line1, f1, w1, w2, w3. auto.
Qed.

Lemma X9_stalled_clock_repeats_witness :
  firewall.Templates sampleFirewall = compiledOf fortinet /\
  (forall n, clock stalledWorld n = 1793448000 * Second) /\
  exists line0 line f1 w1 w2 w3,
    firewall.Next sampleFirewall stalledWorld = Done (Ok line0, f1) w1 /\
    firewall.Next f1 w1 = Done (Ok line, f1) w2 /\
    firewall.Next f1 w2 = Done (Ok line, f1) w3.
Proof.
  assert (H : firewall.Templates sampleFirewall = compiledOf fortinet)
    by exact (proj2 (fw_constructed_inv _ sampleFirewall_constructed)).
  split; [exact H|]. split; [intros n; reflexivity|].
  exact (X9_stalled_clock_repeats sampleFirewall stalledWorld
           (1793448000 * Second) H (fun n => eq_refl)).
Defined.

(** ** The shape of the lines *)

Lemma append_assoc (a b c : string) : (a +:+ b) +:+ c = a +:+ (b +:+ c).
Proof.
  induction a as [|x a IH]; [reflexivity|].
  change (String x ((a +:+ b) +:+ c) = String x (a +:+ (b +:+ c))).
  by rewrite IH.
Qed.

Lemma fwHeader_split (f : firewall.Firewall) (l : list string) (tail : string) :
  take 10 l =
    ["date="; time.Format (time.In_UTC (firewall.Date f)) "2006-01-02";
     " time="; firewall.Timestamp f;
     " devname=" +:+ dquote; firewall.DevName f;
     dquote +:+ " devid=" +:+ dquote; firewall.DevId f;
     dquote +:+ " logid=" +:+ dquote; itoa (firewall.LogId f)] ->
  cat (drop 10 l) = (dquote +:+ " type=" +:+ dquote) +:+ tail ->
  cat l = fwHeader f +:+ tail.
Proof.
  intros Htake Hdrop.
  assert (Hh : fwHeader f = cat (take 10 l) +:+ (dquote +:+ " type=" +:+ dquote)).
  { rewrite Htake. unfold fwHeader.
    match goal with
    | |- cat ?h = cat ?h10 +:+ ?h11 => exact (cat_app h10 [h11])
    end. }
  rewrite Hh, append_assoc, <- Hdrop, <- cat_app, take_drop. reflexivity.
Qed.

(** X10: whichever of its four templates is selected, a firewall line
    begins with the same header: the date of the record in UTC, its
    Timestamp, DevName, DevId and LogId, and the opening of the type. *)
Theorem X10_firewall_header (f : firewall.Firewall) (t : template.Template) :
  t ∈ compiledOf fortinet ->
  exists tail,
    template.Execute t (firewall.data f) = Ok (fwHeader f +:+ tail).
Proof.
  rewrite fw_compiled. intros Ht.
  repeat (apply elem_of_cons in Ht as [-> | Ht]);
    [| | | |by apply elem_of_nil in Ht].
  - rewrite render_eventUser. unfold eventUserLine.
    eexists. f_equal. apply fwHeader_split; reflexivity.
  - rewrite render_eventSystem. unfold eventSystemLine.
    eexists. f_equal. apply fwHeader_split; reflexivity.
  - rewrite render_utmDns. unfold utmDnsLine.
    eexists. f_equal. apply fwHeader_split; reflexivity.
  - rewrite render_trafficForward. unfold trafficForwardLine.
    eexists. f_equal. apply fwHeader_split; reflexivity.
Qed.

Lemma X10_firewall_header_witness :
  parsed "2" firewall.utmDnsTemplate ∈ compiledOf fortinet /\
  exists tail,
    template.Execute (parsed "2" firewall.utmDnsTemplate)
      (firewall.data exampleRecord)
    = Ok (fwHeader exampleRecord +:+ tail).
Proof.
  assert (H : parsed "2" firewall.utmDnsTemplate ∈ compiledOf fortinet).
  { rewrite fw_compiled. apply list_elem_of_In. simpl. auto. }
  split; [exact H|].
  exact (X10_firewall_header exampleRecord _ H).
Defined.

(** X11: a CEF line is the head up to the source address, the geolocation
    if the record has one, the fields from the source port to the year,
    the violation category if the record has one, and the action; an
    optional part is left out altogether, label and space included, when
    its field is empty. *)
Theorem X11_cef_line_shape :
  (forall c : cef.CEF,
      template.Execute (parsed "0" cef.tmpl) (cef.data c)
      = Ok (cat [cefHead c; optional "geolocation=" (cef.Geo c);
                 cefMiddle c; optional "cs6=" (cef.ViolationCategory c);
                 "act="; cef.Action c])) /\
  (forall label, optional label EmptyString = EmptyString) /\
  (forall label v, v <> EmptyString ->
                   optional label v = label +:+ v +:+ " ").
Proof.
  split; [|split].
  - intros c. rewrite render_cef. f_equal.
    unfold cefLine, cefHead, cefMiddle.
    match goal with
    | |- cat ?l = cat [cat ?h; ?o1; cat ?m; ?o2; ?a; ?b] =>
        change l with (h ++ o1 :: (m ++ [o2; a; b]))
    end.
    rewrite cat_app.
    match goal with
    | |- _ +:+ cat (?o1 :: ?rest) = _ =>
        change (cat (o1 :: rest)) with (o1 +:+ cat rest)
    end.
    rewrite cat_app. reflexivity.
  - reflexivity.
  - intros label v Hv. destruct v; [done|].
    unfold optional, cat. cbn [foldr]. reflexivity.
Qed.

Lemma X11_cef_line_shape_witness :
  "phishing" <> EmptyString /\
  optional "cs6=" "phishing" = "cs6=" +:+ "phishing" +:+ " ".
Proof.
  assert (H : "phishing" <> EmptyString) by discriminate.
  split; [exact H|].
  exact (proj2 (proj2 X11_cef_line_shape) "cs6=" "phishing" H).
Defined.

(** ** The time and the date of a firewall record *)

Lemma returns_Randomtime_exact (w : World) (Q : string -> World -> Prop) :
  Q (time.Format (randomTimestamp w) "15:04:05") (reseeded w) ->
  returns random.Randomtime w Q.
Proof. intros HQ. unfold returns. by rewrite Randomtime_run. Qed.

Ltac draw_exact :=
  cbv beta;
  lazymatch goal with
  | |- returns (bind _ _) _ _ => apply returns_bind
  | |- returns random.Randomtime _ _ => apply returns_Randomtime_exact
  | |- returns time.Now _ _ => apply returns_Now
  | |- returns random.Port _ _ => apply returns_Port; intros ? ?
  | |- returns random.IPv4 _ _ => apply returns_IPv4; intros ? ?
  | |- returns (pick _) _ _ => apply returns_pick; [reflexivity | intros ? ?]
  | |- returns (rand.Intn _) _ _ => apply returns_Intn; [lia | intros ? ?]
  end.

Lemma fw_randomize_times (f : firewall.Firewall) (w : World) :
  returns (firewall.randomize f) w (fun f' _ =>
    firewall.Timestamp f' = time.Format (randomTimestamp w) "15:04:05" /\
    firewall.Date f' = mkTime (clock w (tick w + 2)%nat) (Local (zone w))).
Proof.
  unfold firewall.randomize. cbv zeta.
  repeat draw_exact.
  apply returns_ret.
  cbn [firewall.Timestamp firewall.Date seq prng clock zone tick advance
       ticked reseeded].
  split; [reflexivity|].
  by replace (tick w + 2)%nat with (S (S (tick w))) by lia.
Qed.

(** X12: in a randomized firewall record the Date is the third reading of
    the clock and the Timestamp is the time of day, in the local zone, of
    an instant in the twenty minutes before the second reading; on a clock
    that does not run backwards the instant of the Timestamp lies before
    the Date. *)
Theorem X12_firewall_time_before_date (f : firewall.Firewall) (w : World) :
  clock w (tick w + 1)%nat <= clock w (tick w + 2)%nat ->
  exists f' w' t,
    firewall.randomize f w = Done f' w' /\
    firewall.Timestamp f'
    = time.Format (mkTime t (Local (zone w))) "15:04:05" /\
    firewall.Date f' = mkTime (clock w (tick w + 2)%nat) (Local (zone w)) /\
    clock w (tick w + 1)%nat - 20 * Minute <= t < clock w (tick w + 1)%nat /\
    t < unixNanos (firewall.Date f').
Proof.
  intros Hmono.
  destruct (returns_inv _ _ _ (fw_randomize_times f w))
    as (f' & w' & Hrun & Hts & Hdate).
  exists f', w', (callTime w - window + drawnOffset w).
  split; [exact Hrun|]. split; [exact Hts|]. split; [exact Hdate|].
  pose proof (drawnOffset_range w) as Hoff.
  assert (Hcall : callTime w = clock w (tick w + 1)%nat)
    by (unfold callTime; f_equal; lia).
  rewrite Hdate. cbn [unixNanos]. rewrite <- Hcall in *.
  change (20 * Minute) with window. lia.
Qed.

Lemma X12_firewall_time_before_date_witness :
  clock sampleWorld (tick sampleWorld + 1)%nat
  <= clock sampleWorld (tick sampleWorld + 2)%nat /\
  exists f' w' t,
    firewall.randomize firewall.zero sampleWorld = Done f' w' /\
    firewall.Timestamp f'
    = time.Format (mkTime t (Local (zone sampleWorld))) "15:04:05" /\
    firewall.Date f'
    = mkTime (clock sampleWorld (tick sampleWorld + 2)%nat)
             (Local (zone sampleWorld)) /\
    clock sampleWorld (tick sampleWorld + 1)%nat - 20 * Minute <= t
    < clock sampleWorld (tick sampleWorld + 1)%nat /\
    t < unixNanos (firewall.Date f').
Proof.
  assert (H : clock sampleWorld (tick sampleWorld + 1)%nat
              <= clock sampleWorld (tick sampleWorld + 2)%nat)
    by (vm_compute; discriminate).
  split; [exact H|].
  exact (X12_firewall_time_before_date firewall.zero sampleWorld H).
Defined.
